(** * Incognide MCP server: backend discovery, target registry, action relay

    A shallow embedding of [src/mcp_servers/incognide_mcp_server.py].

    Python values that travel through the server (tool arguments, request
    payloads, backend answers) are JSON shaped and are modelled by the
    inductive type [pyval]; a Python [dict] keeps its insertion order, so it
    is an association list.  The process environment is a finite map.  The
    module level globals, the standard error stream and the HTTP traffic are
    threaded through a small state-and-exception monad. *)

From stdpp Require Import base strings list gmap pretty.
From Stdlib Require Import Ascii ZArith Lia.

Local Open Scope Z_scope.

(** ** Python strings *)

(** Truth value of a [str]: only the empty string is falsy. *)
Definition truthy (s : string) : bool :=
  match s with
  | EmptyString => false
  | String _ _ => true
  end.

(** [a or b] on strings. *)
Definition py_or (a b : string) : string := if truthy a then a else b.

(** [str(n)] and [f"{n}"] for an [int]. *)
Definition str_of_int (n : Z) : string := pretty n.

(** ** Backend Locator *)

Section backend_locator.
(** [os.environ] *)
Variable environ : gmap string string.
(** [connects port] tells whether the body of the [try] of the probe loop
    runs to its end for [port]: the socket is created, connected to
    127.0.0.1:[port] within the 0.5 s timeout and closed.  Anything raised
    there is swallowed by the bare [except]. *)
Variable connects : Z → bool.

(** The ports in the order the loop visits them. *)
Definition candidate_ports : list Z := [5337; 5437].

(** The [for port in ...] loop.  The second component is the list of
    ports on which a connection was attempted, oldest first. *)
Fixpoint probe_loop (ports : list Z) (probed : list Z) : option string * list Z :=
  match ports with
  | [] => (None, probed)
  | port :: rest =>
      if connects port
      then (Some ("http://127.0.0.1:" +:+ str_of_int port), probed ++ [port])
      else probe_loop rest (probed ++ [port])
  end.

Definition _detect_backend_url : string * list Z :=
  let explicit := default "" (environ !! "INCOGNIDE_BACKEND_URL") in
  if truthy explicit then (explicit, [])
  else
    match probe_loop candidate_ports [] with
    | (Some url, probed) => (url, probed)
    | (None, probed) => ("http://127.0.0.1:5437", probed)
    end.
End backend_locator.

(** ** Python values *)

(** A [float].  A finite non-zero value is given by the digits of its
    shortest decimal expansion (the decimal digits of [digits], read as
    0.d1d2...dn) and the position [decpt] of the decimal point, the value
    being 0.d1...dn * 10^decpt; this is what [float.__repr__] prints from. *)
Inductive pyfloat :=
  | FNan
  | FInf (negative : bool)
  | FZero (negative : bool)
  | FFinite (negative : bool) (digits : positive) (decpt : Z).

(** What a tool receives, sends and gets back: [None], [bool], [int],
    [float], [str], [list] and [dict] with [str] keys in insertion order. *)
#[warnings="-register-all"]
Inductive pyval :=
  | VNone
  | VBool (b : bool)
  | VInt (n : Z)
  | VFloat (x : pyfloat)
  | VStr (s : string)
  | VList (items : list pyval)
  | VDict (items : list (string * pyval)).

Definition pydict := list (string * pyval).

(** [d.get(k)] *)
Fixpoint dict_get (k : string) (d : pydict) : option pyval :=
  match d with
  | [] => None
  | (k', v) :: rest => if String.eqb k k' then Some v else dict_get k rest
  end.

(** [d[k] = v]: an existing key keeps its place, a new key goes last. *)
Fixpoint dict_set (k : string) (v : pyval) (d : pydict) : pydict :=
  match d with
  | [] => [(k, v)]
  | (k', v') :: rest =>
      if String.eqb k k' then (k, v) :: rest else (k', v') :: dict_set k v rest
  end.

(** [list(d.keys())] *)
Definition dict_keys (d : pydict) : list string := map fst d.

(** ** [json.dumps] *)

Definition nl : string := String "010"%char EmptyString.
Definition dquote : string := String "034"%char EmptyString.

Fixpoint repeat_char (c : ascii) (n : nat) : string :=
  match n with
  | O => EmptyString
  | S n' => String c (repeat_char c n')
  end.

Fixpoint str_take (n : nat) (s : string) : string :=
  match n, s with
  | S n', String c s' => String c (str_take n' s')
  | _, _ => EmptyString
  end.

Fixpoint str_drop (n : nat) (s : string) : string :=
  match n, s with
  | S n', String _ s' => str_drop n' s'
  | _, _ => s
  end.

Fixpoint join (sep : string) (parts : list string) : string :=
  match parts with
  | [] => EmptyString
  | [p] => p
  | p :: rest => p +:+ sep +:+ join sep rest
  end.

(** The exponent of the scientific notation: a sign and at least two
    digits. *)
Definition exp_str (e : Z) : string :=
  (if e <? 0 then "-" else "+") +:+
  (if Z.abs e <? 10 then "0" else "") +:+ str_of_int (Z.abs e).

(** [float.__repr__]: scientific notation when [decpt <= -4] or
    [decpt > 16], positional notation with at least one digit after the
    point otherwise. *)
Definition float_repr (x : pyfloat) : string :=
  match x with
  | FNan => "nan"
  | FInf negative => if negative then "-inf" else "inf"
  | FZero negative => (if negative then "-" else "") +:+ "0.0"
  | FFinite negative digits decpt =>
      let ds := pretty digits in
      let n := Z.of_nat (String.length ds) in
      (if negative then "-" else "") +:+
      (if (decpt <=? -4) || (16 <? decpt) then
         str_take 1 ds +:+ (if 1 <? n then "." +:+ str_drop 1 ds else "") +:+
         "e" +:+ exp_str (decpt - 1)
       else if decpt <=? 0 then
         "0." +:+ repeat_char "0"%char (Z.to_nat (- decpt)) +:+ ds
       else if n <=? decpt then
         ds +:+ repeat_char "0"%char (Z.to_nat (decpt - n)) +:+ ".0"
       else
         str_take (Z.to_nat decpt) ds +:+ "." +:+ str_drop (Z.to_nat decpt) ds)
  end.

(** [floatstr] of [json.encoder], with [allow_nan] at its default. *)
Definition floatstr (x : pyfloat) : string :=
  match x with
  | FNan => "NaN"
  | FInf false => "Infinity"
  | FInf true => "-Infinity"
  | _ => float_repr x
  end.

Definition hex_char (n : N) : ascii :=
  match n with
  | 0 => "0" | 1 => "1" | 2 => "2" | 3 => "3" | 4 => "4" | 5 => "5"
  | 6 => "6" | 7 => "7" | 8 => "8" | 9 => "9" | 10 => "a" | 11 => "b"
  | 12 => "c" | 13 => "d" | 14 => "e" | _ => "f"
  end%char%N.

(** [format(n, '04x')] behind a backslash and a [u] *)
Definition u_escape (n : N) : string :=
  "\u" +:+
  String (hex_char (n / 4096 mod 16)) (String (hex_char (n / 256 mod 16))
    (String (hex_char (n / 16 mod 16)) (String (hex_char (n mod 16)) EmptyString))).

(** The replacement of one character in [encode_basestring_ascii]: the
    quote, the backslash and everything outside [' '..'~'] are escaped. *)
Definition escape_char (c : ascii) : string :=
  let n := N_of_ascii c in
  if (n =? 34)%N then "\" +:+ dquote
  else if (n =? 92)%N then "\\"
  else if (n =? 10)%N then "\n"
  else if (n =? 13)%N then "\r"
  else if (n =? 9)%N then "\t"
  else if (n =? 12)%N then "\f"
  else if (n =? 8)%N then "\b"
  else if (32 <=? n)%N && (n <=? 126)%N then String c EmptyString
  else u_escape n.

Fixpoint escape_chars (s : string) : string :=
  match s with
  | EmptyString => EmptyString
  | String c s' => escape_char c +:+ escape_chars s'
  end.

Definition encode_basestring_ascii (s : string) : string :=
  dquote +:+ escape_chars s +:+ dquote.

(** [indent] is [None] or [Some k] for [indent=k]; [level] is
    [_current_indent_level]. *)
Definition newline_indent (indent : option nat) (level : nat) : string :=
  match indent with
  | None => EmptyString
  | Some k => nl +:+ repeat_char " "%char (k * level)
  end.

Definition item_separator (indent : option nat) : string :=
  match indent with
  | None => ", "
  | Some _ => ","
  end.

Definition key_separator : string := ": ".

Fixpoint iterencode (indent : option nat) (level : nat) (o : pyval) {struct o} : string :=
  match o with
  | VNone => "null"
  | VBool b => if b then "true" else "false"
  | VInt n => str_of_int n
  | VFloat x => floatstr x
  | VStr s => encode_basestring_ascii s
  | VList items =>
      match items with
      | [] => "[]"
      | _ =>
          "[" +:+ newline_indent indent (S level) +:+
          join (item_separator indent +:+ newline_indent indent (S level))
               (map (iterencode indent (S level)) items) +:+
          newline_indent indent level +:+ "]"
      end
  | VDict items =>
      match items with
      | [] => "{}"
      | _ =>
          "{" +:+ newline_indent indent (S level) +:+
          join (item_separator indent +:+ newline_indent indent (S level))
               (map (λ kv, encode_basestring_ascii kv.1 +:+ key_separator +:+
                           iterencode indent (S level) kv.2) items) +:+
          newline_indent indent level +:+ "}"
      end
  end.

(** [json.dumps(o)] is [json_dumps None o], [json.dumps(o, indent=2)] is
    [json_dumps (Some 2) o]. *)
Definition json_dumps (indent : option nat) (o : pyval) : string :=
  iterencode indent 0 o.

(** ** JSON texts (RFC 8259)

    The grammar a tool's output is checked against.  Character classes are
    boolean tests on the code of a character; the productions are inductive
    predicates on strings. *)

Definition is_ws (c : ascii) : bool :=
  let n := N_of_ascii c in
  ((n =? 32) || (n =? 9) || (n =? 10) || (n =? 13))%N.

Definition is_digit (c : ascii) : bool :=
  let n := N_of_ascii c in ((48 <=? n) && (n <=? 57))%N.

Definition is_digit19 (c : ascii) : bool :=
  let n := N_of_ascii c in ((49 <=? n) && (n <=? 57))%N.

Definition is_hexdig (c : ascii) : bool :=
  let n := N_of_ascii c in
  (((48 <=? n) && (n <=? 57)) || ((97 <=? n) && (n <=? 102)) ||
   ((65 <=? n) && (n <=? 70)))%N.

(** A character that may stand for itself inside a string. *)
Definition is_unescaped (c : ascii) : bool :=
  let n := N_of_ascii c in
  ((32 <=? n) && negb (n =? 34) && negb (n =? 92))%N.

(** A character that may follow a backslash: the quote, the backslash, the
    slash and the letters b, f, n, r, t. *)
Definition is_escapable (c : ascii) : bool :=
  let n := N_of_ascii c in
  ((n =? 34) || (n =? 92) || (n =? 47) || (n =? 98) || (n =? 102) ||
   (n =? 110) || (n =? 114) || (n =? 116))%N.

Fixpoint all_chars (p : ascii → bool) (s : string) : bool :=
  match s with
  | EmptyString => true
  | String c s' => p c && all_chars p s'
  end.

(** [ws] *)
Definition json_ws (s : string) : Prop := all_chars is_ws s = true.

(** [1*DIGIT] *)
Definition json_digits (s : string) : Prop :=
  s ≠ EmptyString ∧ all_chars is_digit s = true.

(** [int = zero / ( digit1-9 *DIGIT )] *)
Inductive json_int : string → Prop :=
  | int_zero : json_int "0"
  | int_nonzero c s :
      is_digit19 c = true → all_chars is_digit s = true → json_int (String c s).

(** [[ frac ]] *)
Inductive json_frac : string → Prop :=
  | frac_none : json_frac EmptyString
  | frac_some ds : json_digits ds → json_frac ("." +:+ ds).

(** [[ exp ]] *)
Inductive json_exp : string → Prop :=
  | exp_none : json_exp EmptyString
  | exp_some e sign ds :
      e = "e" ∨ e = "E" →
      sign = EmptyString ∨ sign = "+" ∨ sign = "-" →
      json_digits ds →
      json_exp (e +:+ sign +:+ ds).

(** [number = [ minus ] int [ frac ] [ exp ]] *)
Inductive json_number : string → Prop :=
  | number_intro minus i f e :
      minus = EmptyString ∨ minus = "-" →
      json_int i → json_frac f → json_exp e →
      json_number (minus +:+ i +:+ f +:+ e).

(** [*char] *)
Inductive json_chars : string → Prop :=
  | chars_nil : json_chars EmptyString
  | chars_plain c s :
      is_unescaped c = true → json_chars s → json_chars (String c s)
  | chars_escape c s :
      is_escapable c = true → json_chars s → json_chars ("\" +:+ String c s)
  | chars_unicode h1 h2 h3 h4 s :
      is_hexdig h1 = true → is_hexdig h2 = true →
      is_hexdig h3 = true → is_hexdig h4 = true →
      json_chars s →
      json_chars ("\u" +:+ String h1 (String h2 (String h3 (String h4 s)))).

(** [string = quotation-mark *char quotation-mark] *)
Inductive json_string : string → Prop :=
  | string_intro body :
      json_chars body → json_string (dquote +:+ body +:+ dquote).

(** [value], with the comma separated bodies of arrays and objects. *)
Inductive json_value : string → Prop :=
  | value_null : json_value "null"
  | value_true : json_value "true"
  | value_false : json_value "false"
  | value_number s : json_number s → json_value s
  | value_string s : json_string s → json_value s
  | value_array_empty w : json_ws w → json_value ("[" +:+ w +:+ "]")
  | value_array body : json_elements body → json_value ("[" +:+ body +:+ "]")
  | value_object_empty w : json_ws w → json_value ("{" +:+ w +:+ "}")
  | value_object body : json_members body → json_value ("{" +:+ body +:+ "}")
with json_elements : string → Prop :=
  | elements_last w1 v w2 :
      json_ws w1 → json_value v → json_ws w2 →
      json_elements (w1 +:+ v +:+ w2)
  | elements_more w1 v w2 rest :
      json_ws w1 → json_value v → json_ws w2 → json_elements rest →
      json_elements (w1 +:+ v +:+ w2 +:+ "," +:+ rest)
with json_members : string → Prop :=
  | members_last w1 k w2 w3 v w4 :
      json_ws w1 → json_string k → json_ws w2 →
      json_ws w3 → json_value v → json_ws w4 →
      json_members (w1 +:+ k +:+ w2 +:+ ":" +:+ w3 +:+ v +:+ w4)
  | members_more w1 k w2 w3 v w4 rest :
      json_ws w1 → json_string k → json_ws w2 →
      json_ws w3 → json_value v → json_ws w4 → json_members rest →
      json_members (w1 +:+ k +:+ w2 +:+ ":" +:+ w3 +:+ v +:+ w4 +:+ "," +:+ rest).

(** [JSON-text = ws value ws] *)
Definition json_text (s : string) : Prop :=
  ∃ w1 v w2, json_ws w1 ∧ json_value v ∧ json_ws w2 ∧ s = w1 +:+ v +:+ w2.

(** A value without NaN and without infinities, at any depth. *)
Fixpoint finite_floats (o : pyval) : bool :=
  match o with
  | VFloat FNan | VFloat (FInf _) => false
  | VList items => forallb finite_floats items
  | VDict items => forallb (λ kv, finite_floats kv.2) items
  | _ => true
  end.

(** ** Exceptions, HTTP and the process state *)

(** The two exception classes the handlers tell apart:
    [aiohttp.ClientError] is a subclass of [Exception]. *)
Inductive exc_class := Exception | ClientError.

(** A raised exception: the more specific of the two classes it is an
    instance of, and [str(e)]. *)
Record exn := Exn { exn_type : exc_class; exn_str : string }.

Definition isinstance (e : exn) (cls : exc_class) : bool :=
  match cls, exn_type e with
  | Exception, _ => true
  | ClientError, ClientError => true
  | ClientError, Exception => false
  end.

Inductive http_method := GET | POST.

(** One call of [session.get] or [session.post]: the URL, the [json=]
    argument when there is one, and [ClientTimeout(total=...)] in seconds. *)
Record http_call := HttpCall {
  call_method : http_method;
  call_url : string;
  call_json : option pyval;
  call_timeout : Z
}.

(** The response object: its [status], and what awaiting [json()] and
    [text()] gives, a value or an exception. *)
Record response := Response {
  status : Z;
  json_body : exn + pyval;
  text_body : exn + string
}.

(** What is written to [sys.stderr]. *)
Inductive stderr_item :=
  | Written (s : string)
  | Traceback (e : exn).

(** The module globals and the observable effects of the process. *)
Record state := State {
  INCOGNIDE_BACKEND_URL : string;
  _target_window_id : string;
  stderr : list stderr_item;
  requests : list http_call
}.

Inductive result (A : Type) :=
  | Return (a : A)
  | Raise (e : exn).
Arguments Return {A} a.
Arguments Raise {A} e.

(** A coroutine of the server: it runs on a state and either returns or
    raises; what it did to the state before raising stays done. *)
Definition M (A : Type) : Type := state → result A * state.

#[global] Instance M_ret : MRet M := λ A a st, (Return a, st).

#[global] Instance M_bind : MBind M := λ A B f m st,
  match m st with
  | (Return a, st') => f a st'
  | (Raise e, st') => (Raise e, st')
  end.

Definition raise {A} (e : exn) : M A := λ st, (Raise e, st).

(** [try: body  except cls1 as e: h1  except cls2 as e: h2 ...]: the first
    clause whose class the exception is an instance of handles it; with no
    such clause it propagates. *)
Fixpoint select_handler {A} (e : exn) (clauses : list (exc_class * (exn → M A))) : M A :=
  match clauses with
  | [] => raise e
  | (cls, h) :: rest => if isinstance e cls then h e else select_handler e rest
  end.

Definition try_except {A} (body : M A) (clauses : list (exc_class * (exn → M A))) : M A :=
  λ st,
    match body st with
    | (Return a, st') => (Return a, st')
    | (Raise e, st') => select_handler e clauses st'
    end.

Definition read_target_window_id : M string := λ st, (Return (_target_window_id st), st).

Definition read_backend_url : M string := λ st, (Return (INCOGNIDE_BACKEND_URL st), st).

Definition write_target_window_id (w : string) : M unit := λ st,
  (Return tt, State (INCOGNIDE_BACKEND_URL st) w (stderr st) (requests st)).

Definition stderr_write (s : string) : M unit := λ st,
  (Return tt,
   State (INCOGNIDE_BACKEND_URL st) (_target_window_id st)
         (stderr st ++ [Written s]) (requests st)).

(** [traceback.print_exc(file=sys.stderr)] in the handler of [e]. *)
Definition print_exc (e : exn) : M unit := λ st,
  (Return tt,
   State (INCOGNIDE_BACKEND_URL st) (_target_window_id st)
         (stderr st ++ [Traceback e]) (requests st)).

Definition await {A} (r : exn + A) : M A :=
  match r with
  | inl e => raise e
  | inr a => mret a
  end.

Section server.
(** The world outside the process: what a call on the HTTP session
    leads to, an exception or a response. *)
Variable backend : http_call → exn + response.

Definition session_request (call : http_call) : M response := λ st,
  await (backend call)
    (State (INCOGNIDE_BACKEND_URL st) (_target_window_id st)
           (stderr st) (requests st ++ [call])).

Definition session_post (url : string) (json : pyval) (total : Z) : M response :=
  session_request (HttpCall POST url (Some json) total).

Definition session_get (url : string) (total : Z) : M response :=
  session_request (HttpCall GET url None total).

(** The result dictionary of a failure. *)
Definition failure (error : string) : pyval :=
  VDict [("success", VBool false); ("error", VStr error)].

Definition call_incognide_action (action : string) (args : pydict) (window_id : string)
  : M pyval :=
  target ← read_target_window_id;
  let effective_window_id := py_or window_id target in
  stderr_write ("[MCP SERVER] call_incognide_action: " +:+ action +:+
                " window=" +:+ effective_window_id +:+ nl);;
  try_except
    (let payload := [("action", VStr action); ("args", VDict args)] in
     let payload :=
       if truthy effective_window_id
       then dict_set "window_id" (VStr effective_window_id) payload
       else payload in
     base ← read_backend_url;
     response ← session_post (base +:+ "/api/studio/action") (VDict payload) 30;
     if status response =? 200 then
       result ← await (json_body response);
       mret result
     else
       error_text ← await (text_body response);
       stderr_write ("[MCP SERVER] Error: HTTP " +:+ str_of_int (status response) +:+
                     ": " +:+ error_text +:+ nl);;
       mret (failure ("HTTP " +:+ str_of_int (status response) +:+ ": " +:+ error_text)))
    [ (ClientError, λ e,
         stderr_write ("[MCP SERVER] Connection error: " +:+ exn_str e +:+ nl);;
         mret (failure ("Connection error: " +:+ exn_str e)));
      (Exception, λ e,
         stderr_write ("[MCP SERVER] Exception: " +:+ exn_str e +:+ nl);;
         print_exc e;;
         mret (failure ("Error: " +:+ exn_str e))) ].

(** *** Window management tools *)

Definition list_windows : M string :=
  try_except
    (base ← read_backend_url;
     response ← session_get (base +:+ "/api/studio/windows") 10;
     if status response =? 200 then
       result ← await (json_body response);
       mret (json_dumps (Some 2%nat) result)
     else
       error_text ← await (text_body response);
       mret (json_dumps None
               (failure ("HTTP " +:+ str_of_int (status response) +:+ ": " +:+ error_text))))
    [ (Exception, λ e,
         stderr_write ("[MCP SERVER] list_windows error: " +:+ exn_str e +:+ nl);;
         mret (json_dumps None (failure (exn_str e)))) ].

Definition set_target_window (window_id : string) : M string :=
  write_target_window_id window_id;;
  mret (json_dumps None (VDict [
    ("success", VBool true);
    ("target_window_id", VStr window_id);
    ("message", VStr (if truthy window_id
                      then "Target window set to: " +:+ window_id
                      else "Target window cleared (broadcast mode)")) ])).

Definition get_target_window : M string :=
  target ← read_target_window_id;
  mret (json_dumps None (VDict [
    ("success", VBool true);
    ("target_window_id", VStr target);
    ("is_set", VBool (truthy target)) ])).
End server.

Section tools.
Variable backend : http_call → exn + response.

(** *** Pane management tools *)

Definition open_pane (pane_type content_id position shell_type : string) : M string :=
  let args := [("type", VStr pane_type); ("position", VStr position)] in
  let args :=
    if truthy content_id then
      if String.eqb pane_type "browser"
      then dict_set "url" (VStr content_id) args
      else dict_set "path" (VStr content_id) args
    else args in
  let args :=
    if truthy shell_type then dict_set "shellType" (VStr shell_type) args else args in
  result ← call_incognide_action backend "open_pane" args "";
  mret (json_dumps (Some 2%nat) result).

Definition close_pane (pane_id : string) : M string :=
  result ← call_incognide_action backend "close_pane" [
      ("paneId", VStr pane_id) ] "";
  mret (json_dumps (Some 2%nat) result).

Definition focus_pane (pane_id : string) : M string :=
  result ← call_incognide_action backend "focus_pane" [
      ("paneId", VStr pane_id) ] "";
  mret (json_dumps (Some 2%nat) result).

Definition list_panes : M string :=
  result ← call_incognide_action backend "list_panes" [] "";
  mret (json_dumps (Some 2%nat) result).

Definition list_pane_types : M string :=
  result ← call_incognide_action backend "list_pane_types" [] "";
  mret (json_dumps (Some 2%nat) result).

Definition list_actions : M string :=
  result ← call_incognide_action backend "list_actions" [] "";
  mret (json_dumps (Some 2%nat) result).

Definition navigate_browser (url : string) (pane_id : string) : M string :=
  result ← call_incognide_action backend "navigate" [
      ("paneId", VStr pane_id);
      ("url", VStr url) ] "";
  mret (json_dumps (Some 2%nat) result).

Definition show_diff (original : string) (modified : string) (title : string) : M string :=
  result ← call_incognide_action backend "open_pane" [
      ("type", VStr "diff");
      ("original", VStr original);
      ("modified", VStr modified);
      ("title", VStr title) ] "";
  mret (json_dumps (Some 2%nat) result).

Definition request_approval (message : string) (title : string) : M string :=
  result ← call_incognide_action backend "confirm" [
      ("message", VStr message);
      ("title", VStr title) ] "";
  mret (json_dumps (Some 2%nat) result).

Definition notify (message : string) (notification_type : string) (duration : Z) : M string :=
  result ← call_incognide_action backend "notify" [
      ("message", VStr message);
      ("type", VStr notification_type);
      ("duration", VInt duration) ] "";
  mret (json_dumps (Some 2%nat) result).

Definition get_browser_info (pane_id : string) : M string :=
  result ← call_incognide_action backend "get_browser_info" [
      ("paneId", VStr pane_id) ] "";
  mret (json_dumps (Some 2%nat) result).

Definition split_pane (direction : string) (pane_type : string) (content_id : string) (pane_id : string) : M string :=
  result ← call_incognide_action backend "split_pane" [
      ("paneId", VStr pane_id);
      ("direction", VStr direction);
      ("type", VStr pane_type);
      ("path", VStr content_id) ] "";
  mret (json_dumps (Some 2%nat) result).

Definition zen_mode (pane_id : string) : M string :=
  result ← call_incognide_action backend "zen_mode" [
      ("paneId", VStr pane_id) ] "";
  mret (json_dumps (Some 2%nat) result).

Definition run_terminal (command : string) (pane_id : string) : M string :=
  result ← call_incognide_action backend "run_terminal" [
      ("command", VStr command);
      ("paneId", VStr pane_id) ] "";
  mret (json_dumps (Some 2%nat) result).

Definition browser_click (selector : string) (text : string) (index : Z) (pane_id : string) : M string :=
  result ← call_incognide_action backend "browser_click" [
      ("paneId", VStr pane_id);
      ("selector", VStr selector);
      ("text", VStr text);
      ("index", VInt index) ] "";
  mret (json_dumps (Some 2%nat) result).

Definition browser_type (selector : string) (text : string) (clear : bool) (submit : bool) (pane_id : string) : M string :=
  result ← call_incognide_action backend "browser_type" [
      ("paneId", VStr pane_id);
      ("selector", VStr selector);
      ("text", VStr text);
      ("clear", VBool clear);
      ("submit", VBool submit) ] "";
  mret (json_dumps (Some 2%nat) result).

Definition get_browser_content (pane_id : string) : M string :=
  result ← call_incognide_action backend "get_browser_content" [
      ("paneId", VStr pane_id) ] "";
  mret (json_dumps (Some 2%nat) result).

Definition browser_screenshot (pane_id : string) : M string :=
  result ← call_incognide_action backend "browser_screenshot" [
      ("paneId", VStr pane_id) ] "";
  mret (json_dumps (Some 2%nat) result).

Definition browser_eval (code : string) (pane_id : string) : M string :=
  result ← call_incognide_action backend "browser_eval" [
      ("paneId", VStr pane_id);
      ("code", VStr code) ] "";
  mret (json_dumps (Some 2%nat) result).

(** *** Spreadsheet tools (CSV/XLSX) *)

Definition spreadsheet_read (pane_id : string) (max_rows : Z) (include_stats : bool) : M string :=
  result ← call_incognide_action backend "spreadsheet_read" [
      ("paneId", VStr pane_id);
      ("maxRows", VInt max_rows);
      ("includeStats", VBool include_stats) ] "";
  mret (json_dumps (Some 2%nat) result).

Definition spreadsheet_eval (code : string) (pane_id : string) : M string :=
  result ← call_incognide_action backend "spreadsheet_eval" [
      ("paneId", VStr pane_id);
      ("code", VStr code) ] "";
  mret (json_dumps (Some 2%nat) result).

Definition spreadsheet_update_cell (row : Z) (col : Z) (value : string) (pane_id : string) : M string :=
  result ← call_incognide_action backend "spreadsheet_update_cell" [
      ("paneId", VStr pane_id);
      ("row", VInt row);
      ("col", VInt col);
      ("value", VStr value) ] "";
  mret (json_dumps (Some 2%nat) result).

Definition spreadsheet_update_cells (updates : list pydict) (pane_id : string) : M string :=
  result ← call_incognide_action backend "spreadsheet_update_cells" [
      ("paneId", VStr pane_id);
      ("updates", VList (map VDict updates)) ] "";
  mret (json_dumps (Some 2%nat) result).

Definition spreadsheet_add_row (index : Z) (pane_id : string) : M string :=
  result ← call_incognide_action backend "spreadsheet_add_row" [
      ("paneId", VStr pane_id);
      ("index", if 0 <=? index then VInt index else VNone) ] "";
  mret (json_dumps (Some 2%nat) result).

Definition spreadsheet_delete_row (index : Z) (pane_id : string) : M string :=
  result ← call_incognide_action backend "spreadsheet_delete_row" [
      ("paneId", VStr pane_id);
      ("index", VInt index) ] "";
  mret (json_dumps (Some 2%nat) result).

Definition spreadsheet_add_column (name : string) (pane_id : string) : M string :=
  result ← call_incognide_action backend "spreadsheet_add_column" [
      ("paneId", VStr pane_id);
      ("name", VStr name) ] "";
  mret (json_dumps (Some 2%nat) result).

Definition spreadsheet_delete_column (col : Z) (pane_id : string) : M string :=
  result ← call_incognide_action backend "spreadsheet_delete_column" [
      ("paneId", VStr pane_id);
      ("col", VInt col) ] "";
  mret (json_dumps (Some 2%nat) result).

Definition spreadsheet_sort (col : Z) (direction : string) (pane_id : string) : M string :=
  result ← call_incognide_action backend "spreadsheet_sort" [
      ("paneId", VStr pane_id);
      ("col", VInt col);
      ("direction", VStr direction) ] "";
  mret (json_dumps (Some 2%nat) result).

Definition spreadsheet_stats (col : Z) (pane_id : string) : M string :=
  result ← call_incognide_action backend "spreadsheet_stats" [
      ("paneId", VStr pane_id);
      ("col", VInt col) ] "";
  mret (json_dumps (Some 2%nat) result).

Definition spreadsheet_save (pane_id : string) : M string :=
  result ← call_incognide_action backend "spreadsheet_save" [
      ("paneId", VStr pane_id) ] "";
  mret (json_dumps (Some 2%nat) result).

Definition spreadsheet_export (format : string) (pane_id : string) : M string :=
  result ← call_incognide_action backend "spreadsheet_export" [
      ("paneId", VStr pane_id);
      ("format", VStr format) ] "";
  mret (json_dumps (Some 2%nat) result).

Definition spreadsheet_switch_sheet (sheet_name : string) (pane_id : string) : M string :=
  result ← call_incognide_action backend "spreadsheet_switch_sheet" [
      ("paneId", VStr pane_id);
      ("sheetName", VStr sheet_name) ] "";
  mret (json_dumps (Some 2%nat) result).

(** *** Document tools (DOCX) *)

Definition document_read (format : string) (pane_id : string) : M string :=
  result ← call_incognide_action backend "document_read" [
      ("paneId", VStr pane_id);
      ("format", VStr format) ] "";
  mret (json_dumps (Some 2%nat) result).

Definition document_eval (code : string) (pane_id : string) : M string :=
  result ← call_incognide_action backend "document_eval" [
      ("paneId", VStr pane_id);
      ("code", VStr code) ] "";
  mret (json_dumps (Some 2%nat) result).

Definition document_write (content : string) (position : string) (pane_id : string) : M string :=
  result ← call_incognide_action backend "document_write" [
      ("paneId", VStr pane_id);
      ("content", VStr content);
      ("position", VStr position) ] "";
  mret (json_dumps (Some 2%nat) result).

Definition document_find_replace (search : string) (replace : string) (replace_all : bool) (pane_id : string) : M string :=
  result ← call_incognide_action backend "document_find_replace" [
      ("paneId", VStr pane_id);
      ("search", VStr search);
      ("replace", VStr replace);
      ("replaceAll", VBool replace_all) ] "";
  mret (json_dumps (Some 2%nat) result).

Definition document_format (command : string) (value : string) (pane_id : string) : M string :=
  result ← call_incognide_action backend "document_format" [
      ("paneId", VStr pane_id);
      ("command", VStr command);
      ("value", VStr value) ] "";
  mret (json_dumps (Some 2%nat) result).

Definition document_insert_table (rows : Z) (cols : Z) (pane_id : string) : M string :=
  result ← call_incognide_action backend "document_insert_table" [
      ("paneId", VStr pane_id);
      ("rows", VInt rows);
      ("cols", VInt cols) ] "";
  mret (json_dumps (Some 2%nat) result).

Definition document_save (pane_id : string) : M string :=
  result ← call_incognide_action backend "document_save" [
      ("paneId", VStr pane_id) ] "";
  mret (json_dumps (Some 2%nat) result).

Definition document_stats (pane_id : string) : M string :=
  result ← call_incognide_action backend "document_stats" [
      ("paneId", VStr pane_id) ] "";
  mret (json_dumps (Some 2%nat) result).

(** *** Presentation tools (PPTX) *)

Definition presentation_read (pane_id : string) : M string :=
  result ← call_incognide_action backend "presentation_read" [
      ("paneId", VStr pane_id) ] "";
  mret (json_dumps (Some 2%nat) result).

Definition presentation_read_slide (slide_index : Z) (pane_id : string) : M string :=
  result ← call_incognide_action backend "presentation_read_slide" [
      ("paneId", VStr pane_id);
      ("slideIndex", if 0 <=? slide_index then VInt slide_index else VNone) ] "";
  mret (json_dumps (Some 2%nat) result).

Definition presentation_eval (code : string) (pane_id : string) : M string :=
  result ← call_incognide_action backend "presentation_eval" [
      ("paneId", VStr pane_id);
      ("code", VStr code) ] "";
  mret (json_dumps (Some 2%nat) result).

Definition presentation_update_text (shape_index : Z) (text : string) (slide_index : Z) (pane_id : string) : M string :=
  result ← call_incognide_action backend "presentation_update_text" [
      ("paneId", VStr pane_id);
      ("shapeIndex", VInt shape_index);
      ("text", VStr text);
      ("slideIndex", if 0 <=? slide_index then VInt slide_index else VNone) ] "";
  mret (json_dumps (Some 2%nat) result).

Definition presentation_add_slide (pane_id : string) : M string :=
  result ← call_incognide_action backend "presentation_add_slide" [
      ("paneId", VStr pane_id) ] "";
  mret (json_dumps (Some 2%nat) result).

Definition presentation_delete_slide (slide_index : Z) (pane_id : string) : M string :=
  result ← call_incognide_action backend "presentation_delete_slide" [
      ("paneId", VStr pane_id);
      ("slideIndex", if 0 <=? slide_index then VInt slide_index else VNone) ] "";
  mret (json_dumps (Some 2%nat) result).

Definition presentation_duplicate_slide (slide_index : Z) (pane_id : string) : M string :=
  result ← call_incognide_action backend "presentation_duplicate_slide" [
      ("paneId", VStr pane_id);
      ("slideIndex", if 0 <=? slide_index then VInt slide_index else VNone) ] "";
  mret (json_dumps (Some 2%nat) result).

Definition presentation_set_background (color : string) (pane_id : string) : M string :=
  result ← call_incognide_action backend "presentation_set_background" [
      ("paneId", VStr pane_id);
      ("color", VStr color) ] "";
  mret (json_dumps (Some 2%nat) result).

Definition presentation_add_shape (shape_type : string) (color : string) (pane_id : string) : M string :=
  result ← call_incognide_action backend "presentation_add_shape" [
      ("paneId", VStr pane_id);
      ("shapeType", VStr shape_type);
      ("color", VStr color) ] "";
  mret (json_dumps (Some 2%nat) result).

Definition presentation_save (pane_id : string) : M string :=
  result ← call_incognide_action backend "presentation_save" [
      ("paneId", VStr pane_id) ] "";
  mret (json_dumps (Some 2%nat) result).
End tools.

(** ** The tools as the MCP server exposes them

    One constructor per function registered with [@mcp.tool()]; a parameter
    that has a default value in the signature may be left out by the
    caller. *)
Module Tool.
Inductive t :=
  | list_windows
  | set_target_window (window_id : string)
  | get_target_window
  | open_pane (pane_type : string) (content_id : option string) (position : option string) (shell_type : option string)
  | close_pane (pane_id : option string)
  | focus_pane (pane_id : string)
  | list_panes
  | list_pane_types
  | list_actions
  | navigate_browser (url : string) (pane_id : option string)
  | show_diff (original : string) (modified : string) (title : option string)
  | request_approval (message : string) (title : option string)
  | notify (message : string) (notification_type : option string) (duration : option Z)
  | get_browser_info (pane_id : option string)
  | split_pane (direction : string) (pane_type : string) (content_id : option string) (pane_id : option string)
  | zen_mode (pane_id : option string)
  | run_terminal (command : string) (pane_id : option string)
  | browser_click (selector : option string) (text : option string) (index : option Z) (pane_id : option string)
  | browser_type (selector : string) (text : string) (clear : option bool) (submit : option bool) (pane_id : option string)
  | get_browser_content (pane_id : option string)
  | browser_screenshot (pane_id : option string)
  | browser_eval (code : string) (pane_id : option string)
  | spreadsheet_read (pane_id : option string) (max_rows : option Z) (include_stats : option bool)
  | spreadsheet_eval (code : string) (pane_id : option string)
  | spreadsheet_update_cell (row : Z) (col : Z) (value : string) (pane_id : option string)
  | spreadsheet_update_cells (updates : list pydict) (pane_id : option string)
  | spreadsheet_add_row (index : option Z) (pane_id : option string)
  | spreadsheet_delete_row (index : Z) (pane_id : option string)
  | spreadsheet_add_column (name : option string) (pane_id : option string)
  | spreadsheet_delete_column (col : Z) (pane_id : option string)
  | spreadsheet_sort (col : Z) (direction : option string) (pane_id : option string)
  | spreadsheet_stats (col : Z) (pane_id : option string)
  | spreadsheet_save (pane_id : option string)
  | spreadsheet_export (format : option string) (pane_id : option string)
  | spreadsheet_switch_sheet (sheet_name : string) (pane_id : option string)
  | document_read (format : option string) (pane_id : option string)
  | document_eval (code : string) (pane_id : option string)
  | document_write (content : string) (position : option string) (pane_id : option string)
  | document_find_replace (search : string) (replace : option string) (replace_all : option bool) (pane_id : option string)
  | document_format (command : string) (value : option string) (pane_id : option string)
  | document_insert_table (rows : Z) (cols : Z) (pane_id : option string)
  | document_save (pane_id : option string)
  | document_stats (pane_id : option string)
  | presentation_read (pane_id : option string)
  | presentation_read_slide (slide_index : option Z) (pane_id : option string)
  | presentation_eval (code : string) (pane_id : option string)
  | presentation_update_text (shape_index : Z) (text : string) (slide_index : option Z) (pane_id : option string)
  | presentation_add_slide (pane_id : option string)
  | presentation_delete_slide (slide_index : option Z) (pane_id : option string)
  | presentation_duplicate_slide (slide_index : option Z) (pane_id : option string)
  | presentation_set_background (color : string) (pane_id : option string)
  | presentation_add_shape (shape_type : string) (color : option string) (pane_id : option string)
  | presentation_save (pane_id : option string).
End Tool.

Section dispatch.
Variable backend : http_call → exn + response.

(** A call of a tool by name with its arguments: omitted arguments take
    the defaults of the signature. *)
Definition call_tool (c : Tool.t) : M string :=
  match c with
  | Tool.list_windows => list_windows backend
  | Tool.set_target_window window_id => set_target_window window_id
  | Tool.get_target_window => get_target_window
  | Tool.open_pane pane_type content_id position shell_type =>
      open_pane backend pane_type (default "" content_id) (default "right" position) (default "" shell_type)
  | Tool.close_pane pane_id => close_pane backend (default "active" pane_id)
  | Tool.focus_pane pane_id => focus_pane backend pane_id
  | Tool.list_panes => list_panes backend
  | Tool.list_pane_types => list_pane_types backend
  | Tool.list_actions => list_actions backend
  | Tool.navigate_browser url pane_id =>
      navigate_browser backend url (default "active" pane_id)
  | Tool.show_diff original modified title =>
      show_diff backend original modified (default "Diff View" title)
  | Tool.request_approval message title =>
      request_approval backend message (default "Approval Required" title)
  | Tool.notify message notification_type duration =>
      notify backend message (default "info" notification_type) (default 3000 duration)
  | Tool.get_browser_info pane_id => get_browser_info backend (default "active" pane_id)
  | Tool.split_pane direction pane_type content_id pane_id =>
      split_pane backend direction pane_type (default "" content_id) (default "active" pane_id)
  | Tool.zen_mode pane_id => zen_mode backend (default "active" pane_id)
  | Tool.run_terminal command pane_id =>
      run_terminal backend command (default "active" pane_id)
  | Tool.browser_click selector text index pane_id =>
      browser_click backend (default "" selector) (default "" text) (default 0 index) (default "active" pane_id)
  | Tool.browser_type selector text clear submit pane_id =>
      browser_type backend selector text (default true clear) (default false submit) (default "active" pane_id)
  | Tool.get_browser_content pane_id =>
      get_browser_content backend (default "active" pane_id)
  | Tool.browser_screenshot pane_id =>
      browser_screenshot backend (default "active" pane_id)
  | Tool.browser_eval code pane_id =>
      browser_eval backend code (default "active" pane_id)
  | Tool.spreadsheet_read pane_id max_rows include_stats =>
      spreadsheet_read backend (default "active" pane_id) (default 200 max_rows) (default false include_stats)
  | Tool.spreadsheet_eval code pane_id =>
      spreadsheet_eval backend code (default "active" pane_id)
  | Tool.spreadsheet_update_cell row col value pane_id =>
      spreadsheet_update_cell backend row col value (default "active" pane_id)
  | Tool.spreadsheet_update_cells updates pane_id =>
      spreadsheet_update_cells backend updates (default "active" pane_id)
  | Tool.spreadsheet_add_row index pane_id =>
      spreadsheet_add_row backend (default (-1) index) (default "active" pane_id)
  | Tool.spreadsheet_delete_row index pane_id =>
      spreadsheet_delete_row backend index (default "active" pane_id)
  | Tool.spreadsheet_add_column name pane_id =>
      spreadsheet_add_column backend (default "" name) (default "active" pane_id)
  | Tool.spreadsheet_delete_column col pane_id =>
      spreadsheet_delete_column backend col (default "active" pane_id)
  | Tool.spreadsheet_sort col direction pane_id =>
      spreadsheet_sort backend col (default "asc" direction) (default "active" pane_id)
  | Tool.spreadsheet_stats col pane_id =>
      spreadsheet_stats backend col (default "active" pane_id)
  | Tool.spreadsheet_save pane_id => spreadsheet_save backend (default "active" pane_id)
  | Tool.spreadsheet_export format pane_id =>
      spreadsheet_export backend (default "csv" format) (default "active" pane_id)
  | Tool.spreadsheet_switch_sheet sheet_name pane_id =>
      spreadsheet_switch_sheet backend sheet_name (default "active" pane_id)
  | Tool.document_read format pane_id =>
      document_read backend (default "text" format) (default "active" pane_id)
  | Tool.document_eval code pane_id =>
      document_eval backend code (default "active" pane_id)
  | Tool.document_write content position pane_id =>
      document_write backend content (default "replace" position) (default "active" pane_id)
  | Tool.document_find_replace search replace replace_all pane_id =>
      document_find_replace backend search (default "" replace) (default true replace_all) (default "active" pane_id)
  | Tool.document_format command value pane_id =>
      document_format backend command (default "" value) (default "active" pane_id)
  | Tool.document_insert_table rows cols pane_id =>
      document_insert_table backend rows cols (default "active" pane_id)
  | Tool.document_save pane_id => document_save backend (default "active" pane_id)
  | Tool.document_stats pane_id => document_stats backend (default "active" pane_id)
  | Tool.presentation_read pane_id =>
      presentation_read backend (default "active" pane_id)
  | Tool.presentation_read_slide slide_index pane_id =>
      presentation_read_slide backend (default (-1) slide_index) (default "active" pane_id)
  | Tool.presentation_eval code pane_id =>
      presentation_eval backend code (default "active" pane_id)
  | Tool.presentation_update_text shape_index text slide_index pane_id =>
      presentation_update_text backend shape_index text (default (-1) slide_index) (default "active" pane_id)
  | Tool.presentation_add_slide pane_id =>
      presentation_add_slide backend (default "active" pane_id)
  | Tool.presentation_delete_slide slide_index pane_id =>
      presentation_delete_slide backend (default (-1) slide_index) (default "active" pane_id)
  | Tool.presentation_duplicate_slide slide_index pane_id =>
      presentation_duplicate_slide backend (default (-1) slide_index) (default "active" pane_id)
  | Tool.presentation_set_background color pane_id =>
      presentation_set_background backend color (default "active" pane_id)
  | Tool.presentation_add_shape shape_type color pane_id =>
      presentation_add_shape backend shape_type (default "#4285f4" color) (default "active" pane_id)
  | Tool.presentation_save pane_id =>
      presentation_save backend (default "active" pane_id)
  end.

(** The tools that work on the target registry or list the windows; all
    the others are wrappers around [call_incognide_action]. *)
Definition is_window_tool (c : Tool.t) : bool :=
  match c with
  | Tool.list_windows | Tool.set_target_window _ | Tool.get_target_window => true
  | _ => false
  end.
End dispatch.

(** ** Start of the process *)

(** The state once the module is loaded: the backend URL is detected once,
    the target registry is empty. *)
Definition module_init (environ : gmap string string) (connects : Z → bool) : state :=
  State (_detect_backend_url environ connects).1 "" [] [].

(** What a coroutine returned or raised, and the state it left. *)
Definition outcome {A} (m : M A) (st : state) : result A := (m st).1.
Definition final {A} (m : M A) (st : state) : state := (m st).2.

(** The calls on the HTTP session made by [m] when started in [st]. *)
Definition new_requests {A} (m : M A) (st : state) : list http_call :=
  drop (length (requests st)) (requests (final m st)).

(** A session: tool calls served one after the other, each with the
    behaviour of the backend at the time of the call. *)
Fixpoint run_session (calls : list ((http_call → exn + response) * Tool.t)) (st : state)
  : state :=
  match calls with
  | [] => st
  | (backend, c) :: rest => run_session rest (final (call_tool backend c) st)
  end.

Definition is_set_target (c : Tool.t) : bool :=
  match c with
  | Tool.set_target_window _ => true
  | _ => false
  end.

(** ** Vocabulary of the specification

    The notions the specification speaks with, written from its words; the
    theorems below relate them to the code above. *)

(** Effective window id: the explicit one if non-empty, else the value of
    the Target Registry. *)
Definition effective_window (explicit registry : string) : string :=
  if decide (explicit = "") then registry else explicit.

(** The JSON payload [{action, args, window_id?}], [window_id] omitted if
    empty. *)
Definition action_payload (action : string) (args : pydict) (window : string) : pyval :=
  VDict ([("action", VStr action); ("args", VDict args)] ++
         (if decide (window = "") then [] else [("window_id", VStr window)])).

(** The Action Request: a POST to [<backend>/api/studio/action] with a
    total timeout of 30 seconds and the payload as body. *)
Definition action_request (base action : string) (args : pydict) (window : string) : http_call :=
  HttpCall POST (base +:+ "/api/studio/action") (Some (action_payload action args window)) 30.

(** The [window_id] entry of the body of a request, if it has one. *)
Definition payload_window_id (call : http_call) : option pyval :=
  match call_json call with
  | Some (VDict payload) => dict_get "window_id" payload
  | _ => None
  end.

(** The argument mapping in the body of a request. *)
Definition payload_args (call : http_call) : option pydict :=
  match call_json call with
  | Some (VDict payload) =>
      match dict_get "args" payload with
      | Some (VDict args) => Some args
      | _ => None
      end
  | _ => None
  end.

(** The exception, if any, that the HTTP exchange ends with: the request
    itself fails, or reading the body that the status calls for does. *)
Definition exchange_error (answer : exn + response) : option exn :=
  match answer with
  | inl e => Some e
  | inr resp =>
      if status resp =? 200
      then match json_body resp with inl e => Some e | inr _ => None end
      else match text_body resp with inl e => Some e | inr _ => None end
  end.

(** The structured error a caught exception is turned into by the relay. *)
Definition error_result (e : exn) : pyval :=
  failure ((if isinstance e ClientError then "Connection error: " else "Error: ") +:+
           exn_str e).

(** The Action Result for an answer of the backend: the parsed body on
    status 200, the HTTP error on any other status, a structured error when
    something is raised. *)
Definition action_result (answer : exn + response) : pyval :=
  match answer with
  | inl e => error_result e
  | inr resp =>
      if status resp =? 200 then
        match json_body resp with
        | inr v => v
        | inl e => error_result e
        end
      else
        match text_body resp with
        | inr body => failure ("HTTP " +:+ str_of_int (status resp) +:+ ": " +:+ body)
        | inl e => error_result e
        end
  end.

(** A backend whose parsed 200 bodies hold neither NaN nor an infinity. *)
Definition finite_answer (answer : exn + response) : bool :=
  match answer with
  | inr resp =>
      match json_body resp with
      | inr v => finite_floats v
      | inl _ => true
      end
  | inl _ => true
  end.

(** The answer is a response with status 200 whose body parses. *)
Definition parsed_ok (answer : exn + response) : bool :=
  match answer with
  | inr resp =>
      (status resp =? 200) &&
      match json_body resp with inr _ => true | inl _ => false end
  | inl _ => false
  end.

(** A character a JSON value can start with. *)
Definition is_value_start (c : ascii) : bool :=
  let n := N_of_ascii c in
  (is_digit c || (n =? 45) || (n =? 34) || (n =? 91) || (n =? 123) ||
   (n =? 110) || (n =? 116) || (n =? 102))%N.

(** Pretty-printed with [indent=k]: a text [json.dumps] writes with that
    indent; pretty-printed: with some indent. *)
Definition pretty_printed_with (k : nat) (s : string) : Prop :=
  ∃ o, s = json_dumps (Some k) o.

Definition pretty_printed (s : string) : Prop := ∃ k, pretty_printed_with k s.

(** Compact: the text [json.dumps] writes without [indent]. *)
Definition compact (s : string) : Prop := ∃ o, s = json_dumps None o.

(** The tools that only read or write the target registry. *)
Definition is_registry_tool (c : Tool.t) : bool :=
  match c with
  | Tool.set_target_window _ | Tool.get_target_window => true
  | _ => false
  end.

(** What a relay wrapper does: one call of the relay under a fixed action
    name, the result serialised with [indent=2]. *)
Definition relay_wrapper (backend : http_call → exn + response)
    (action : string) (args : pydict) : M string :=
  result ← call_incognide_action backend action args "";
  mret (json_dumps (Some 2%nat) result).

(** ** Sessions and the start-up banner *)

(** The target a session leaves in the registry: the argument of its last
    [set_target_window], or the target it started with. *)
Fixpoint last_target (calls : list ((http_call → exn + response) * Tool.t))
    (current : string) : string :=
  match calls with
  | [] => current
  | (_, Tool.set_target_window w) :: rest => last_target rest w
  | _ :: rest => last_target rest current
  end.

(** The calls of a session that go to the backend. *)
Definition backend_calls (calls : list ((http_call → exn + response) * Tool.t))
  : list ((http_call → exn + response) * Tool.t) :=
  filter (λ bc, is_registry_tool bc.2 = false) calls.

(** The name a tool is registered under: the name of its function. *)
Definition tool_name (c : Tool.t) : string :=
  match c with
  | Tool.list_windows => "list_windows"
  | Tool.set_target_window _ => "set_target_window"
  | Tool.get_target_window => "get_target_window"
  | Tool.open_pane _ _ _ _ => "open_pane"
  | Tool.close_pane _ => "close_pane"
  | Tool.focus_pane _ => "focus_pane"
  | Tool.list_panes => "list_panes"
  | Tool.list_pane_types => "list_pane_types"
  | Tool.list_actions => "list_actions"
  | Tool.navigate_browser _ _ => "navigate_browser"
  | Tool.show_diff _ _ _ => "show_diff"
  | Tool.request_approval _ _ => "request_approval"
  | Tool.notify _ _ _ => "notify"
  | Tool.get_browser_info _ => "get_browser_info"
  | Tool.split_pane _ _ _ _ => "split_pane"
  | Tool.zen_mode _ => "zen_mode"
  | Tool.run_terminal _ _ => "run_terminal"
  | Tool.browser_click _ _ _ _ => "browser_click"
  | Tool.browser_type _ _ _ _ _ => "browser_type"
  | Tool.get_browser_content _ => "get_browser_content"
  | Tool.browser_screenshot _ => "browser_screenshot"
  | Tool.browser_eval _ _ => "browser_eval"
  | Tool.spreadsheet_read _ _ _ => "spreadsheet_read"
  | Tool.spreadsheet_eval _ _ => "spreadsheet_eval"
  | Tool.spreadsheet_update_cell _ _ _ _ => "spreadsheet_update_cell"
  | Tool.spreadsheet_update_cells _ _ => "spreadsheet_update_cells"
  | Tool.spreadsheet_add_row _ _ => "spreadsheet_add_row"
  | Tool.spreadsheet_delete_row _ _ => "spreadsheet_delete_row"
  | Tool.spreadsheet_add_column _ _ => "spreadsheet_add_column"
  | Tool.spreadsheet_delete_column _ _ => "spreadsheet_delete_column"
  | Tool.spreadsheet_sort _ _ _ => "spreadsheet_sort"
  | Tool.spreadsheet_stats _ _ => "spreadsheet_stats"
  | Tool.spreadsheet_save _ => "spreadsheet_save"
  | Tool.spreadsheet_export _ _ => "spreadsheet_export"
  | Tool.spreadsheet_switch_sheet _ _ => "spreadsheet_switch_sheet"
  | Tool.document_read _ _ => "document_read"
  | Tool.document_eval _ _ => "document_eval"
  | Tool.document_write _ _ _ => "document_write"
  | Tool.document_find_replace _ _ _ _ => "document_find_replace"
  | Tool.document_format _ _ _ => "document_format"
  | Tool.document_insert_table _ _ _ => "document_insert_table"
  | Tool.document_save _ => "document_save"
  | Tool.document_stats _ => "document_stats"
  | Tool.presentation_read _ => "presentation_read"
  | Tool.presentation_read_slide _ _ => "presentation_read_slide"
  | Tool.presentation_eval _ _ => "presentation_eval"
  | Tool.presentation_update_text _ _ _ _ => "presentation_update_text"
  | Tool.presentation_add_slide _ => "presentation_add_slide"
  | Tool.presentation_delete_slide _ _ => "presentation_delete_slide"
  | Tool.presentation_duplicate_slide _ _ => "presentation_duplicate_slide"
  | Tool.presentation_set_background _ _ => "presentation_set_background"
  | Tool.presentation_add_shape _ _ _ => "presentation_add_shape"
  | Tool.presentation_save _ => "presentation_save"
  end.

(** The lines that list the tools in the [__main__] block. *)
Definition tool_banner : list string :=
  [
    "Available tools: list_windows, set_target_window, get_target_window," +:+ nl;
    "                 open_pane, close_pane, focus_pane, list_panes, list_pane_types," +:+ nl;
    "                 navigate_browser, show_diff, request_approval," +:+ nl;
    "                 notify, get_browser_info, split_pane, zen_mode, list_actions," +:+ nl;
    "                 run_terminal, browser_click, browser_type," +:+ nl;
    "                 get_browser_content, browser_screenshot, browser_eval," +:+ nl;
    "                 spreadsheet_read, spreadsheet_eval, spreadsheet_update_cell," +:+ nl;
    "                 spreadsheet_update_cells, spreadsheet_add_row, spreadsheet_delete_row," +:+ nl;
    "                 spreadsheet_add_column, spreadsheet_delete_column, spreadsheet_sort," +:+ nl;
    "                 spreadsheet_stats, spreadsheet_save, spreadsheet_export," +:+ nl;
    "                 spreadsheet_switch_sheet," +:+ nl;
    "                 document_read, document_eval, document_write," +:+ nl;
    "                 document_find_replace, document_format, document_insert_table," +:+ nl;
    "                 document_save, document_stats," +:+ nl;
    "                 presentation_read, presentation_read_slide, presentation_eval," +:+ nl;
    "                 presentation_update_text, presentation_add_slide," +:+ nl;
    "                 presentation_delete_slide, presentation_duplicate_slide," +:+ nl;
    "                 presentation_set_background, presentation_add_shape," +:+ nl;
    "                 presentation_save" +:+ nl ].

(** The [__main__] block up to [mcp.run]: everything is written to
    [sys.stderr]. *)
Definition startup : M unit :=
  stderr_write ("Starting Incognide MCP server..." +:+ nl);;
  base ← read_backend_url;
  stderr_write ("Backend URL: " +:+ base +:+ nl);;
  foldr (λ line rest, stderr_write line;; rest) (mret tt) tool_banner.

(** The words of a text: the maximal runs of characters other than the
    space, the comma and the line feed. *)
Fixpoint words_of (cur : string) (s : string) : list string :=
  match s with
  | EmptyString => if truthy cur then [cur] else []
  | String c s' =>
      if ((N_of_ascii c =? 32) || (N_of_ascii c =? 44) || (N_of_ascii c =? 10))%N
      then (if truthy cur then [cur] else []) ++ words_of EmptyString s'
      else words_of (cur +:+ String c EmptyString) s'
  end.

(** The tool names the banner lists: its words after [Available tools:]. *)
Definition banner_names : list string :=
  drop 2 (words_of EmptyString (foldr String.append EmptyString tool_banner)).

(** One call of each tool, optional arguments left out. *)
Definition tool_samples : list Tool.t :=
  [
    Tool.list_windows;
    Tool.set_target_window "";
    Tool.get_target_window;
    Tool.open_pane "" None None None;
    Tool.close_pane None;
    Tool.focus_pane "";
    Tool.list_panes;
    Tool.list_pane_types;
    Tool.list_actions;
    Tool.navigate_browser "" None;
    Tool.show_diff "" "" None;
    Tool.request_approval "" None;
    Tool.notify "" None None;
    Tool.get_browser_info None;
    Tool.split_pane "" "" None None;
    Tool.zen_mode None;
    Tool.run_terminal "" None;
    Tool.browser_click None None None None;
    Tool.browser_type "" "" None None None;
    Tool.get_browser_content None;
    Tool.browser_screenshot None;
    Tool.browser_eval "" None;
    Tool.spreadsheet_read None None None;
    Tool.spreadsheet_eval "" None;
    Tool.spreadsheet_update_cell 0 0 "" None;
    Tool.spreadsheet_update_cells [] None;
    Tool.spreadsheet_add_row None None;
    Tool.spreadsheet_delete_row 0 None;
    Tool.spreadsheet_add_column None None;
    Tool.spreadsheet_delete_column 0 None;
    Tool.spreadsheet_sort 0 None None;
    Tool.spreadsheet_stats 0 None;
    Tool.spreadsheet_save None;
    Tool.spreadsheet_export None None;
    Tool.spreadsheet_switch_sheet "" None;
    Tool.document_read None None;
    Tool.document_eval "" None;
    Tool.document_write "" None None;
    Tool.document_find_replace "" None None None;
    Tool.document_format "" None None;
    Tool.document_insert_table 0 0 None;
    Tool.document_save None;
    Tool.document_stats None;
    Tool.presentation_read None;
    Tool.presentation_read_slide None None;
    Tool.presentation_eval "" None;
    Tool.presentation_update_text 0 "" None None;
    Tool.presentation_add_slide None;
    Tool.presentation_delete_slide None None;
    Tool.presentation_duplicate_slide None None;
    Tool.presentation_set_background "" None;
    Tool.presentation_add_shape "" None None;
    Tool.presentation_save None ].

(** ** Failures of the exchange, by kind

    What the libraries raise for the failures the specification names;
    aiohttp, asyncio and json are not part of this repository. *)

Inductive fault :=
  | ConnectionRefused (message : string)
  | DnsFailure (message : string)
  | TotalTimeout
  | WrongContentType (message : string)
  | InvalidJson (message : string).

(** [aiohttp.ClientConnectorError] for a refused connection and for a name
    that does not resolve; [asyncio.TimeoutError], whose [str] is empty and
    which is no [aiohttp.ClientError], when the total timeout expires;
    [aiohttp.ContentTypeError], a [ClientError], when [json()] is awaited on
    a body whose content type is not JSON; [json.JSONDecodeError], a
    [ValueError], when the body is not valid JSON. *)
Definition exception_of (f : fault) : exn :=
  match f with
  | ConnectionRefused message => Exn ClientError message
  | DnsFailure message => Exn ClientError message
  | TotalTimeout => Exn Exception ""
  | WrongContentType message => Exn ClientError message
  | InvalidJson message => Exn Exception message
  end.

(** ** The wrappers as a table

    For every tool that goes through the relay: the action it names and
    the argument mapping it builds from the arguments of the call, omitted
    arguments taking their defaults. *)

(** An index with a sentinel: a non-negative index as it is, null for a
    negative one. *)
Definition sentinel_index (index : Z) : pyval :=
  if decide (0 ≤ index) then VInt index else VNone.

Definition wrapper_action (c : Tool.t) : string :=
  match c with
  | Tool.navigate_browser _ _ => "navigate"
  | Tool.show_diff _ _ _ => "open_pane"
  | Tool.request_approval _ _ => "confirm"
  | _ => tool_name c
  end.

Definition wrapper_args (c : Tool.t) : pydict :=
  match c with
  | Tool.list_windows | Tool.set_target_window _ | Tool.get_target_window => []
  | Tool.open_pane pane_type content_id position shell_type =>
      [("type", VStr pane_type); ("position", VStr (default "right" position))] ++
      (if decide (default "" content_id = "") then []
       else if decide (pane_type = "browser")
            then [("url", VStr (default "" content_id))]
            else [("path", VStr (default "" content_id))]) ++
      (if decide (default "" shell_type = "") then []
       else [("shellType", VStr (default "" shell_type))])
  | Tool.close_pane pane_id =>
      [("paneId", VStr (default "active" pane_id))]
  | Tool.focus_pane pane_id =>
      [("paneId", VStr pane_id)]
  | Tool.list_panes =>
      []
  | Tool.list_pane_types =>
      []
  | Tool.list_actions =>
      []
  | Tool.navigate_browser url pane_id =>
      [("paneId", VStr (default "active" pane_id));
       ("url", VStr url)]
  | Tool.show_diff original modified title =>
      [("type", VStr "diff");
       ("original", VStr original);
       ("modified", VStr modified);
       ("title", VStr (default "Diff View" title))]
  | Tool.request_approval message title =>
      [("message", VStr message);
       ("title", VStr (default "Approval Required" title))]
  | Tool.notify message notification_type duration =>
      [("message", VStr message);
       ("type", VStr (default "info" notification_type));
       ("duration", VInt (default 3000 duration))]
  | Tool.get_browser_info pane_id =>
      [("paneId", VStr (default "active" pane_id))]
  | Tool.split_pane direction pane_type content_id pane_id =>
      [("paneId", VStr (default "active" pane_id));
       ("direction", VStr direction);
       ("type", VStr pane_type);
       ("path", VStr (default "" content_id))]
  | Tool.zen_mode pane_id =>
      [("paneId", VStr (default "active" pane_id))]
  | Tool.run_terminal command pane_id =>
      [("command", VStr command);
       ("paneId", VStr (default "active" pane_id))]
  | Tool.browser_click selector text index pane_id =>
      [("paneId", VStr (default "active" pane_id));
       ("selector", VStr (default "" selector));
       ("text", VStr (default "" text));
       ("index", VInt (default 0 index))]
  | Tool.browser_type selector text clear submit pane_id =>
      [("paneId", VStr (default "active" pane_id));
       ("selector", VStr selector);
       ("text", VStr text);
       ("clear", VBool (default true clear));
       ("submit", VBool (default false submit))]
  | Tool.get_browser_content pane_id =>
      [("paneId", VStr (default "active" pane_id))]
  | Tool.browser_screenshot pane_id =>
      [("paneId", VStr (default "active" pane_id))]
  | Tool.browser_eval code pane_id =>
      [("paneId", VStr (default "active" pane_id));
       ("code", VStr code)]
  | Tool.spreadsheet_read pane_id max_rows include_stats =>
      [("paneId", VStr (default "active" pane_id));
       ("maxRows", VInt (default 200 max_rows));
       ("includeStats", VBool (default false include_stats))]
  | Tool.spreadsheet_eval code pane_id =>
      [("paneId", VStr (default "active" pane_id));
       ("code", VStr code)]
  | Tool.spreadsheet_update_cell row col value pane_id =>
      [("paneId", VStr (default "active" pane_id));
       ("row", VInt row);
       ("col", VInt col);
       ("value", VStr value)]
  | Tool.spreadsheet_update_cells updates pane_id =>
      [("paneId", VStr (default "active" pane_id));
       ("updates", VList (map VDict updates))]
  | Tool.spreadsheet_add_row index pane_id =>
      [("paneId", VStr (default "active" pane_id));
       ("index", sentinel_index (default (-1) index))]
  | Tool.spreadsheet_delete_row index pane_id =>
      [("paneId", VStr (default "active" pane_id));
       ("index", VInt index)]
  | Tool.spreadsheet_add_column name pane_id =>
      [("paneId", VStr (default "active" pane_id));
       ("name", VStr (default "" name))]
  | Tool.spreadsheet_delete_column col pane_id =>
      [("paneId", VStr (default "active" pane_id));
       ("col", VInt col)]
  | Tool.spreadsheet_sort col direction pane_id =>
      [("paneId", VStr (default "active" pane_id));
       ("col", VInt col);
       ("direction", VStr (default "asc" direction))]
  | Tool.spreadsheet_stats col pane_id =>
      [("paneId", VStr (default "active" pane_id));
       ("col", VInt col)]
  | Tool.spreadsheet_save pane_id =>
      [("paneId", VStr (default "active" pane_id))]
  | Tool.spreadsheet_export format pane_id =>
      [("paneId", VStr (default "active" pane_id));
       ("format", VStr (default "csv" format))]
  | Tool.spreadsheet_switch_sheet sheet_name pane_id =>
      [("paneId", VStr (default "active" pane_id));
       ("sheetName", VStr sheet_name)]
  | Tool.document_read format pane_id =>
      [("paneId", VStr (default "active" pane_id));
       ("format", VStr (default "text" format))]
  | Tool.document_eval code pane_id =>
      [("paneId", VStr (default "active" pane_id));
       ("code", VStr code)]
  | Tool.document_write content position pane_id =>
      [("paneId", VStr (default "active" pane_id));
       ("content", VStr content);
       ("position", VStr (default "replace" position))]
  | Tool.document_find_replace search replace replace_all pane_id =>
      [("paneId", VStr (default "active" pane_id));
       ("search", VStr search);
       ("replace", VStr (default "" replace));
       ("replaceAll", VBool (default true replace_all))]
  | Tool.document_format command value pane_id =>
      [("paneId", VStr (default "active" pane_id));
       ("command", VStr command);
       ("value", VStr (default "" value))]
  | Tool.document_insert_table rows cols pane_id =>
      [("paneId", VStr (default "active" pane_id));
       ("rows", VInt rows);
       ("cols", VInt cols)]
  | Tool.document_save pane_id =>
      [("paneId", VStr (default "active" pane_id))]
  | Tool.document_stats pane_id =>
      [("paneId", VStr (default "active" pane_id))]
  | Tool.presentation_read pane_id =>
      [("paneId", VStr (default "active" pane_id))]
  | Tool.presentation_read_slide slide_index pane_id =>
      [("paneId", VStr (default "active" pane_id));
       ("slideIndex", sentinel_index (default (-1) slide_index))]
  | Tool.presentation_eval code pane_id =>
      [("paneId", VStr (default "active" pane_id));
       ("code", VStr code)]
  | Tool.presentation_update_text shape_index text slide_index pane_id =>
      [("paneId", VStr (default "active" pane_id));
       ("shapeIndex", VInt shape_index);
       ("text", VStr text);
       ("slideIndex", sentinel_index (default (-1) slide_index))]
  | Tool.presentation_add_slide pane_id =>
      [("paneId", VStr (default "active" pane_id))]
  | Tool.presentation_delete_slide slide_index pane_id =>
      [("paneId", VStr (default "active" pane_id));
       ("slideIndex", sentinel_index (default (-1) slide_index))]
  | Tool.presentation_duplicate_slide slide_index pane_id =>
      [("paneId", VStr (default "active" pane_id));
       ("slideIndex", sentinel_index (default (-1) slide_index))]
  | Tool.presentation_set_background color pane_id =>
      [("paneId", VStr (default "active" pane_id));
       ("color", VStr color)]
  | Tool.presentation_add_shape shape_type color pane_id =>
      [("paneId", VStr (default "active" pane_id));
       ("shapeType", VStr shape_type);
       ("color", VStr (default "#4285f4" color))]
  | Tool.presentation_save pane_id =>
      [("paneId", VStr (default "active" pane_id))]
  end.

(** * Properties *)

(** ** Python strings *)

Lemma truthy_true s : truthy s = true ↔ s ≠ "".
Proof. destruct s; simpl; split; congruence. Qed.

Lemma truthy_decide s : truthy s = bool_decide (s ≠ "").
Proof. by destruct s. Qed.

Lemma py_or_effective explicit registry :
  py_or explicit registry = effective_window explicit registry.
Proof.
  unfold py_or, effective_window.
  destruct (decide (explicit = "")) as [->|Hne]; [done|].
  apply truthy_true in Hne. by rewrite Hne.
Qed.

Lemma str_app_cons x a b : String x a +:+ b = String x (a +:+ b).
Proof. done. Qed.

Lemma str_app_nil_l a : "" +:+ a = a.
Proof. done. Qed.

Lemma str_app_assoc a b c : (a +:+ b) +:+ c = a +:+ b +:+ c.
Proof. induction a as [|x a IH]; [done|]. rewrite !str_app_cons. by f_equal. Qed.

Lemma str_app_nil_r a : a +:+ "" = a.
Proof. induction a as [|x a IH]; [done|]. rewrite str_app_cons. by f_equal. Qed.

Lemma str_length_app a b :
  String.length (a +:+ b) = (String.length a + String.length b)%nat.
Proof. induction a as [|x a IH]; [done|]. rewrite str_app_cons. cbn. by f_equal. Qed.

(** Putting a non-empty prefix before a string changes it. *)
Lemma str_prefix_ne p s : p ≠ "" → s ≠ p +:+ s.
Proof.
  intros Hp Heq. apply (f_equal String.length) in Heq.
  rewrite str_length_app in Heq. destruct p; [done|]. cbn in Heq. lia.
Qed.

(** ** Backend Locator *)

Section backend_locator_facts.
Context (environ : gmap string string) (connects : Z → bool).

Lemma detect_explicit u :
  environ !! "INCOGNIDE_BACKEND_URL" = Some u → u ≠ "" →
  _detect_backend_url environ connects = (u, []).
Proof.
  intros Hu Hne. unfold _detect_backend_url. rewrite Hu. simpl.
  apply truthy_true in Hne. by rewrite Hne.
Qed.

Lemma detect_probing :
  default "" (environ !! "INCOGNIDE_BACKEND_URL") = "" →
  _detect_backend_url environ connects =
    if connects 5337 then ("http://127.0.0.1:5337", [5337])
    else if connects 5437 then ("http://127.0.0.1:5437", [5337; 5437])
    else ("http://127.0.0.1:5437", [5337; 5437]).
Proof.
  intros Hd. unfold _detect_backend_url. rewrite Hd. simpl.
  destruct (connects 5337); [done|]. by destruct (connects 5437).
Qed.
End backend_locator_facts.

(** C3.  Backend URL discovery.  An override supplied in the environment
    (a non-empty value of INCOGNIDE_BACKEND_URL) is returned verbatim and no
    port is probed.  With the variable unset, port 5337 is probed first: if
    it accepts, the URL is http://127.0.0.1:5337 and 5437 is not probed,
    whether 5437 is open or not; if only 5437 accepts, the URL is
    http://127.0.0.1:5437; if neither accepts, the URL is the fallback
    http://127.0.0.1:5437. *)
Theorem detect_backend_url_discovery (environ : gmap string string) (connects : Z → bool) :
  (∀ u, environ !! "INCOGNIDE_BACKEND_URL" = Some u → u ≠ "" →
        _detect_backend_url environ connects = (u, [])) ∧
  (environ !! "INCOGNIDE_BACKEND_URL" = None → connects 5337 = true →
        _detect_backend_url environ connects = ("http://127.0.0.1:5337", [5337])) ∧
  (environ !! "INCOGNIDE_BACKEND_URL" = None →
        connects 5337 = false → connects 5437 = true →
        _detect_backend_url environ connects = ("http://127.0.0.1:5437", [5337; 5437])) ∧
  (environ !! "INCOGNIDE_BACKEND_URL" = None →
        connects 5337 = false → connects 5437 = false →
        _detect_backend_url environ connects = ("http://127.0.0.1:5437", [5337; 5437])).
Proof.
  split; [intros u; apply detect_explicit|].
  repeat split; intros Hnone; rewrite detect_probing by (by rewrite Hnone).
  - by intros ->.
  - by intros -> ->.
  - by intros -> ->.
Qed.

Lemma detect_backend_url_discovery_witness :
  _detect_backend_url {[ "INCOGNIDE_BACKEND_URL" := "http://10.0.0.7:9000" ]} (λ _, true)
    = ("http://10.0.0.7:9000", []) ∧
  _detect_backend_url ∅ (λ _, true) = ("http://127.0.0.1:5337", [5337]) ∧
  _detect_backend_url ∅ (λ p, bool_decide (p = 5437)) = ("http://127.0.0.1:5437", [5337; 5437]) ∧
  _detect_backend_url ∅ (λ _, false) = ("http://127.0.0.1:5437", [5337; 5437]).
Proof.
  split; [|split; [|split]].
  - apply (proj1 (detect_backend_url_discovery
                    {[ "INCOGNIDE_BACKEND_URL" := "http://10.0.0.7:9000" ]} (λ _, true)));
      [reflexivity | discriminate].
  - apply (proj1 (proj2 (detect_backend_url_discovery ∅ (λ _, true)))); reflexivity.
  - apply (proj1 (proj2 (proj2 (detect_backend_url_discovery ∅ (λ p, bool_decide (p = 5437))))));
      reflexivity.
  - apply (proj2 (proj2 (proj2 (detect_backend_url_discovery ∅ (λ _, false))))); reflexivity.
Defined.

(** C10.  An override set to the empty string is treated as absent: the
    explicit branch (the value returned verbatim, nothing probed) is taken
    only for a non-empty value of INCOGNIDE_BACKEND_URL, and with the empty
    value the result and the probes are those of the environment without
    the variable. *)
Theorem detect_backend_url_empty_override (environ : gmap string string) (connects : Z → bool) :
  (environ !! "INCOGNIDE_BACKEND_URL" = Some "" →
     _detect_backend_url environ connects =
     _detect_backend_url (delete "INCOGNIDE_BACKEND_URL" environ) connects) ∧
  (environ !! "INCOGNIDE_BACKEND_URL" = Some "" →
     ∃ probed, (_detect_backend_url environ connects).2 = 5337 :: probed) ∧
  (∀ u, environ !! "INCOGNIDE_BACKEND_URL" = Some u →
     (_detect_backend_url environ connects = (u, []) ↔ u ≠ "")).
Proof.
  split; [|split].
  - intros He. rewrite !detect_probing; [done| |by rewrite He].
    by rewrite lookup_delete_eq.
  - intros He. rewrite detect_probing by (by rewrite He).
    destruct (connects 5337); [by exists []|]. destruct (connects 5437); by eexists.
  - intros u Hu. split.
    + intros Hd ->. rewrite detect_probing in Hd by (by rewrite Hu).
      destruct (connects 5337); [done|]. by destruct (connects 5437).
    + by apply detect_explicit.
Qed.

Lemma detect_backend_url_empty_override_witness :
  _detect_backend_url {[ "INCOGNIDE_BACKEND_URL" := "" ]} (λ p, bool_decide (p = 5437)) =
  _detect_backend_url (delete "INCOGNIDE_BACKEND_URL" {[ "INCOGNIDE_BACKEND_URL" := "" ]})
                      (λ p, bool_decide (p = 5437)).
Proof.
  apply (proj1 (detect_backend_url_empty_override
                  {[ "INCOGNIDE_BACKEND_URL" := "" ]} (λ p, bool_decide (p = 5437)))).
  reflexivity.
Defined.

(** ** The monad *)

Lemma run_bind {A B} (m : M A) (f : A → M B) st :
  (m ≫= f) st =
  match m st with
  | (Return a, st') => f a st'
  | (Raise e, st') => (Raise e, st')
  end.
Proof. done. Qed.

(** Runs the straight-line code of a handler. *)
Ltac run_handlers :=
  cbv [mbind M_bind mret M_ret stderr_write print_exc raise await
       select_handler isinstance exn_type];
  cbn [INCOGNIDE_BACKEND_URL _target_window_id stderr requests].

(** ** Action Relay *)

Section relay_facts.
Context (backend : http_call → exn + response).

Lemma relay_payload action args w :
  VDict (if truthy w
         then dict_set "window_id" (VStr w) [("action", VStr action); ("args", VDict args)]
         else [("action", VStr action); ("args", VDict args)])
  = action_payload action args w.
Proof.
  unfold action_payload. destruct (decide (w = "")) as [->|Hne]; [done|].
  apply truthy_true in Hne. by rewrite Hne.
Qed.

(** One run of the relay, spelled out: the value returned, the lines
    written to the error stream, the one request made; the globals are as
    before. *)
Lemma call_incognide_action_run action args window_id st :
  let window := effective_window window_id (_target_window_id st) in
  let call := action_request (INCOGNIDE_BACKEND_URL st) action args window in
  ∃ log,
    call_incognide_action backend action args window_id st =
    (Return (action_result (backend call)),
     State (INCOGNIDE_BACKEND_URL st) (_target_window_id st)
           (stderr st ++ log) (requests st ++ [call])).
Proof.
  intros window call. unfold call_incognide_action.
  rewrite run_bind. unfold read_target_window_id.
  rewrite py_or_effective. fold window.
  rewrite run_bind. unfold stderr_write at 1.
  unfold try_except. rewrite run_bind. unfold read_backend_url. cbn [INCOGNIDE_BACKEND_URL].
  rewrite run_bind. rewrite relay_payload.
  unfold session_post, session_request. cbn [INCOGNIDE_BACKEND_URL _target_window_id stderr requests].
  fold (action_request (INCOGNIDE_BACKEND_URL st) action args window). fold call.
  unfold action_result.
  destruct (backend call) as [[[] msg]|[code js tx]]; cbn.
  - eexists. run_handlers. by rewrite <- !(assoc_L (++)).
  - eexists. run_handlers. by rewrite <- !(assoc_L (++)).
  - destruct (code =? 200).
    + destruct js as [[[] msg]|v]; cbn; [| |by eexists];
        eexists; run_handlers; by rewrite <- !(assoc_L (++)).
    + destruct tx as [[[] msg]|body]; cbn; eexists; run_handlers;
        by rewrite <- !(assoc_L (++)).
Qed.

Lemma call_incognide_action_outcome action args window_id st :
  outcome (call_incognide_action backend action args window_id) st =
  Return (action_result (backend
    (action_request (INCOGNIDE_BACKEND_URL st) action args
       (effective_window window_id (_target_window_id st))))).
Proof.
  unfold outcome.
  destruct (call_incognide_action_run action args window_id st) as [log ->]. done.
Qed.

Lemma call_incognide_action_requests action args window_id st :
  new_requests (call_incognide_action backend action args window_id) st =
  [action_request (INCOGNIDE_BACKEND_URL st) action args
     (effective_window window_id (_target_window_id st))].
Proof.
  unfold new_requests, final.
  destruct (call_incognide_action_run action args window_id st) as [log ->].
  cbn. apply drop_app_length.
Qed.

Lemma call_incognide_action_globals action args window_id st :
  _target_window_id (final (call_incognide_action backend action args window_id) st)
    = _target_window_id st ∧
  INCOGNIDE_BACKEND_URL (final (call_incognide_action backend action args window_id) st)
    = INCOGNIDE_BACKEND_URL st.
Proof.
  unfold final.
  destruct (call_incognide_action_run action args window_id st) as [log ->]. done.
Qed.
End relay_facts.

(** ** Tool surface *)

Section tool_facts.
Context (backend : http_call → exn + response).

(** Every tool outside the window tools is a relay wrapper whose action
    name and argument mapping are fixed by the call alone. *)
Lemma call_tool_relay c :
  is_window_tool c = false →
  ∃ action args, ∀ backend', call_tool backend' c = relay_wrapper backend' action args.
Proof. destruct c; intros Hc; try discriminate Hc; do 2 eexists; intros; reflexivity. Qed.

Lemma relay_wrapper_run action args st :
  let call := action_request (INCOGNIDE_BACKEND_URL st) action args (_target_window_id st) in
  ∃ log,
    relay_wrapper backend action args st =
    (Return (json_dumps (Some 2%nat) (action_result (backend call))),
     State (INCOGNIDE_BACKEND_URL st) (_target_window_id st)
           (stderr st ++ log) (requests st ++ [call])).
Proof.
  intros call. unfold relay_wrapper. rewrite run_bind.
  destruct (call_incognide_action_run backend action args "" st) as [log ->].
  exists log. done.
Qed.

Lemma relay_wrapper_requests action args st :
  new_requests (relay_wrapper backend action args) st =
  [action_request (INCOGNIDE_BACKEND_URL st) action args (_target_window_id st)].
Proof.
  unfold new_requests, final.
  destruct (relay_wrapper_run action args st) as [log ->]. cbn. apply drop_app_length.
Qed.

Lemma list_windows_run st :
  let call := HttpCall GET (INCOGNIDE_BACKEND_URL st +:+ "/api/studio/windows") None 10 in
  ∃ text log,
    list_windows backend st =
    (Return text,
     State (INCOGNIDE_BACKEND_URL st) (_target_window_id st)
           (stderr st ++ log) (requests st ++ [call])) ∧
    text =
      match backend call with
      | inl e => json_dumps None (failure (exn_str e))
      | inr resp =>
          if status resp =? 200 then
            match json_body resp with
            | inr v => json_dumps (Some 2%nat) v
            | inl e => json_dumps None (failure (exn_str e))
            end
          else
            match text_body resp with
            | inr body =>
                json_dumps None
                  (failure ("HTTP " +:+ str_of_int (status resp) +:+ ": " +:+ body))
            | inl e => json_dumps None (failure (exn_str e))
            end
      end.
Proof.
  intros call. unfold list_windows, try_except. rewrite run_bind.
  unfold read_backend_url. rewrite run_bind.
  unfold session_get, session_request.
  cbn [INCOGNIDE_BACKEND_URL _target_window_id stderr requests]. fold call.
  destruct (backend call) as [[cls msg]|[code js tx]]; cbn.
  - destruct cls; run_handlers; by do 2 eexists.
  - destruct (code =? 200).
    + destruct js as [[cls msg]|v]; cbn.
      * destruct cls; run_handlers; by do 2 eexists.
      * exists (json_dumps (Some 2%nat) v), []. by rewrite (right_id_L [] (++)).
    + destruct tx as [[cls msg]|body]; cbn.
      * destruct cls; run_handlers; by do 2 eexists.
      * eexists _, []. by rewrite (right_id_L [] (++)).
Qed.

(** Only [set_target_window] writes the target registry, and no tool
    touches the backend URL. *)
Lemma call_tool_globals c st :
  INCOGNIDE_BACKEND_URL (final (call_tool backend c) st) = INCOGNIDE_BACKEND_URL st ∧
  (is_set_target c = false →
   _target_window_id (final (call_tool backend c) st) = _target_window_id st).
Proof.
  destruct (is_window_tool c) eqn:Hw.
  - destruct c; try discriminate Hw; cbn.
    + unfold final. destruct (list_windows_run st) as (text & log & -> & _). done.
    + done.
    + done.
  - destruct (call_tool_relay c Hw) as (action & args & ->).
    unfold final. destruct (relay_wrapper_run action args st) as [log ->]. done.
Qed.
End tool_facts.

Lemma run_session_globals calls st :
  Forall (λ bc, is_set_target bc.2 = false) calls →
  INCOGNIDE_BACKEND_URL (run_session calls st) = INCOGNIDE_BACKEND_URL st ∧
  _target_window_id (run_session calls st) = _target_window_id st.
Proof.
  intros Hcalls. revert st.
  induction Hcalls as [|[backend c] calls Hc _ IH]; intros st; [done|].
  cbn. destruct (IH (final (call_tool backend c) st)) as [-> ->].
  destruct (call_tool_globals backend c st) as [-> Ht]. by rewrite Ht.
Qed.

(** ** Requests per tool call *)

Lemma call_tool_returns backend c st :
  ∃ text, outcome (call_tool backend c) st = Return text.
Proof.
  unfold outcome. destruct (is_window_tool c) eqn:Hw.
  - destruct c; try discriminate Hw; cbn; [|by eexists..].
    destruct (list_windows_run backend st) as (text & log & -> & _). by eexists.
  - destruct (call_tool_relay c Hw) as (action & args & ->).
    destruct (relay_wrapper_run backend action args st) as [log ->]. by eexists.
Qed.

Lemma list_windows_requests backend st :
  new_requests (list_windows backend) st =
  [HttpCall GET (INCOGNIDE_BACKEND_URL st +:+ "/api/studio/windows") None 10].
Proof.
  unfold new_requests, final.
  destruct (list_windows_run backend st) as (text & log & -> & _). apply drop_app_length.
Qed.

Lemma registry_tool_requests backend c st :
  is_registry_tool c = true → new_requests (call_tool backend c) st = [].
Proof. destruct c; intros Hc; try discriminate Hc; apply drop_all. Qed.

Lemma relay_tool_requests backend c st :
  is_window_tool c = false →
  ∃ action args,
    new_requests (call_tool backend c) st =
    [action_request (INCOGNIDE_BACKEND_URL st) action args (_target_window_id st)].
Proof.
  intros Hw. destruct (call_tool_relay c Hw) as (action & args & ->).
  exists action, args. apply relay_wrapper_requests.
Qed.

(** ** Target routing *)

Lemma payload_window_id_request base action args window :
  payload_window_id (action_request base action args window) =
  if decide (window = "") then None else Some (VStr window).
Proof.
  unfold payload_window_id, action_request, action_payload. cbn.
  by destruct (decide (window = "")).
Qed.

Lemma set_target_window_run w st :
  set_target_window w st =
  (Return (json_dumps None (VDict [
     ("success", VBool true);
     ("target_window_id", VStr w);
     ("message", VStr (if truthy w
                       then "Target window set to: " +:+ w
                       else "Target window cleared (broadcast mode)")) ])),
   State (INCOGNIDE_BACKEND_URL st) w (stderr st) (requests st)).
Proof. done. Qed.

(** After [set_target_window w] and any further calls that do not set the
    target again, a relay wrapper posts one Action Request carrying [w]. *)
Lemma routed_after_set_target w calls backend c st :
  Forall (λ bc, is_set_target bc.2 = false) calls →
  is_window_tool c = false →
  ∃ action args,
    new_requests (call_tool backend c) (run_session calls (final (set_target_window w) st)) =
    [action_request (INCOGNIDE_BACKEND_URL st) action args w].
Proof.
  intros Hcalls Hc. destruct (call_tool_relay c Hc) as (action & args & Hrelay).
  exists action, args. rewrite Hrelay, relay_wrapper_requests.
  destruct (run_session_globals calls (final (set_target_window w) st) Hcalls) as [-> ->].
  done.
Qed.

(** What any tool sends after [set_target_window w]: whichever POST it
    makes carries [w], and none if [w] is empty. *)
Lemma posts_after_set_target w calls backend c st :
  Forall (λ bc, is_set_target bc.2 = false) calls →
  ∀ call,
    call ∈ new_requests (call_tool backend c)
             (run_session calls (final (set_target_window w) st)) →
    call_method call = POST →
    payload_window_id call = if decide (w = "") then None else Some (VStr w).
Proof.
  intros Hcalls call Hin Hpost. destruct (is_window_tool c) eqn:Hw.
  - destruct c; try discriminate Hw.
    + change (call_tool backend Tool.list_windows) with (list_windows backend) in Hin.
      rewrite list_windows_requests in Hin. apply list_elem_of_singleton in Hin as ->.
      discriminate Hpost.
    + rewrite (registry_tool_requests backend (Tool.set_target_window _)) in Hin by done.
      by apply not_elem_of_nil in Hin.
    + rewrite (registry_tool_requests backend Tool.get_target_window) in Hin by done.
      by apply not_elem_of_nil in Hin.
  - destruct (routed_after_set_target w calls backend c st Hcalls Hw)
      as (action & args & Hreq).
    rewrite Hreq in Hin. apply list_elem_of_singleton in Hin as ->.
    apply payload_window_id_request.
Qed.

(** C1.  The effective window id of a relay call is the explicit id when it
    is non-empty and the Target Registry value otherwise: the relay makes
    one POST whose payload carries that id under window_id, and the key is
    absent exactly when the id is empty.  After set_target_window of W1
    (and any calls that do not set the target again) the POST payload of
    any tool call carries window_id = W1, no tool passing an explicit id;
    after set_target_window of the empty string the payload has no
    window_id.  Every tool but list_windows, set_target_window and
    get_target_window makes such a POST. *)
Theorem relay_effective_window_id :
  (∀ backend action args window_id st,
     new_requests (call_incognide_action backend action args window_id) st =
     [action_request (INCOGNIDE_BACKEND_URL st) action args
        (effective_window window_id (_target_window_id st))]) ∧
  (∀ base action args window,
     call_method (action_request base action args window) = POST ∧
     payload_window_id (action_request base action args window) =
     if decide (window = "") then None else Some (VStr window)) ∧
  (∀ calls backend c st call,
     Forall (λ bc, is_set_target bc.2 = false) calls →
     call ∈ new_requests (call_tool backend c)
              (run_session calls (final (set_target_window "W1") st)) →
     call_method call = POST →
     payload_window_id call = Some (VStr "W1")) ∧
  (∀ calls backend c st call,
     Forall (λ bc, is_set_target bc.2 = false) calls →
     call ∈ new_requests (call_tool backend c)
              (run_session calls (final (set_target_window "") st)) →
     call_method call = POST →
     payload_window_id call = None) ∧
  (∀ backend c st,
     is_window_tool c = false →
     ∃ call, new_requests (call_tool backend c) st = [call] ∧ call_method call = POST).
Proof.
  split; [intros; apply call_incognide_action_requests|].
  split; [intros; split; [done|apply payload_window_id_request]|].
  split; [|split].
  - intros calls backend c st call Hcalls Hin Hpost.
    by rewrite (posts_after_set_target "W1" calls backend c st Hcalls call Hin Hpost).
  - intros calls backend c st call Hcalls Hin Hpost.
    by rewrite (posts_after_set_target "" calls backend c st Hcalls call Hin Hpost).
  - intros backend c st Hw.
    destruct (relay_tool_requests backend c st Hw) as (action & args & ->). by eexists.
Qed.

Lemma relay_effective_window_id_witness :
  let session :=
    run_session
      [((λ _, inl (Exn ClientError "refused")), Tool.list_windows);
       ((λ _, inl (Exn ClientError "refused")), Tool.get_target_window)]
      (final (set_target_window "W1") (State "http://127.0.0.1:5437" "" [] [])) in
  let call :=
    action_request "http://127.0.0.1:5437" "close_pane" [("paneId", VStr "active")] "W1" in
  new_requests
    (call_tool (λ _, inr (Response 200 (inr (VDict [])) (inr "{}"))) (Tool.close_pane None))
    session = [call] ∧
  payload_window_id call = Some (VStr "W1").
Proof.
  split; [reflexivity|].
  apply (proj1 (proj2 (proj2 relay_effective_window_id))
           [((λ _, inl (Exn ClientError "refused")), Tool.list_windows);
            ((λ _, inl (Exn ClientError "refused")), Tool.get_target_window)]
           (λ _, inr (Response 200 (inr (VDict [])) (inr "{}")))
           (Tool.close_pane None)
           (State "http://127.0.0.1:5437" "" [] [])).
  - repeat constructor.
  - apply list_elem_of_singleton. reflexivity.
  - reflexivity.
Defined.

(** ** Error handling of the relay *)

Lemma action_result_error answer e :
  exchange_error answer = Some e → action_result answer = error_result e.
Proof.
  unfold exchange_error, action_result.
  destruct answer as [e'|[code js tx]]; cbn; [congruence|].
  destruct (code =? 200); [destruct js|destruct tx]; congruence.
Qed.

(** C2, as amended.  The relay always returns and never raises.  Its value
    is: on a status other than 200, the failure object with error
    "HTTP <status>: <body text>"; on status 200, the parsed body itself;
    when an [aiohttp.ClientError] is raised by the request or while the
    body is read, the failure object with error
    "Connection error: <message>"; on any other exception, the failure
    object with error "Error: <message>".  The two messages go by the class
    of the exception, not by the kind of failure: a refused connection, a
    DNS failure and a 200 body of a content type other than JSON give
    "Connection error: <message>"; an expired total timeout gives "Error: "
    with an empty message, and a body that is not valid JSON gives
    "Error: <message>". *)
Theorem relay_structured_result backend action args window_id st :
  let call := action_request (INCOGNIDE_BACKEND_URL st) action args
                (effective_window window_id (_target_window_id st)) in
  let returned := outcome (call_incognide_action backend action args window_id) st in
  (∃ r, returned = Return r) ∧
  (∀ resp body,
     backend call = inr resp → status resp ≠ 200 → text_body resp = inr body →
     returned = Return (VDict [
       ("success", VBool false);
       ("error", VStr ("HTTP " +:+ str_of_int (status resp) +:+ ": " +:+ body)) ])) ∧
  (∀ e,
     exchange_error (backend call) = Some e → isinstance e ClientError = true →
     returned = Return (VDict [
       ("success", VBool false);
       ("error", VStr ("Connection error: " +:+ exn_str e)) ])) ∧
  (∀ e,
     exchange_error (backend call) = Some e → isinstance e ClientError = false →
     returned = Return (VDict [
       ("success", VBool false);
       ("error", VStr ("Error: " +:+ exn_str e)) ])) ∧
  (∀ resp v,
     backend call = inr resp → status resp = 200 → json_body resp = inr v →
     returned = Return v) ∧
  (∀ f,
     exchange_error (backend call) = Some (exception_of f) →
     returned = Return (VDict [
       ("success", VBool false);
       ("error", VStr match f with
                      | ConnectionRefused message | DnsFailure message
                      | WrongContentType message => "Connection error: " +:+ message
                      | TotalTimeout => "Error: "
                      | InvalidJson message => "Error: " +:+ message
                      end) ])).
Proof.
  intros call returned. subst returned.
  rewrite call_incognide_action_outcome. fold call.
  split; [by eexists|]. split; [|split; [|split; [|split]]].
  - intros resp body -> Hcode Htx. unfold action_result.
    apply Z.eqb_neq in Hcode. by rewrite Hcode, Htx.
  - intros e He Hcls. rewrite (action_result_error _ e He).
    unfold error_result. by rewrite Hcls.
  - intros e He Hcls. rewrite (action_result_error _ e He).
    unfold error_result. by rewrite Hcls.
  - intros resp v -> Hcode Hjs. unfold action_result.
    apply Z.eqb_eq in Hcode. by rewrite Hcode, Hjs.
  - intros f Hf. rewrite (action_result_error _ _ Hf). by destruct f.
Qed.

Lemma relay_structured_result_witness :
  outcome (call_incognide_action
             (λ _, inr (Response 404 (inl (Exn Exception "Expecting value")) (inr "not found")))
             "list_panes" [] "")
          (State "http://127.0.0.1:5437" "" [] [])
  = Return (VDict [("success", VBool false); ("error", VStr "HTTP 404: not found")]) ∧
  outcome (call_incognide_action
             (λ _, inl (Exn ClientError "Cannot connect to host 127.0.0.1:5437"))
             "list_panes" [] "")
          (State "http://127.0.0.1:5437" "" [] [])
  = Return (VDict [("success", VBool false);
                   ("error", VStr "Connection error: Cannot connect to host 127.0.0.1:5437")]) ∧
  outcome (call_incognide_action
             (λ _, inr (Response 200 (inl (Exn Exception "Expecting value")) (inr "oops")))
             "list_panes" [] "")
          (State "http://127.0.0.1:5437" "" [] [])
  = Return (VDict [("success", VBool false); ("error", VStr "Error: Expecting value")]) ∧
  outcome (call_incognide_action
             (λ _, inr (Response 200 (inr (VList [VStr "pane-1"])) (inr "[]")))
             "list_panes" [] "")
          (State "http://127.0.0.1:5437" "" [] [])
  = Return (VList [VStr "pane-1"]) ∧
  outcome (call_incognide_action (λ _, inl (exception_of TotalTimeout)) "list_panes" [] "")
          (State "http://127.0.0.1:5437" "" [] [])
  = Return (VDict [("success", VBool false); ("error", VStr "Error: ")]) ∧
  outcome (call_incognide_action
             (λ _, inr (Response 200
                          (inl (exception_of (WrongContentType "unexpected mimetype: text/html")))
                          (inr "<html></html>")))
             "list_panes" [] "")
          (State "http://127.0.0.1:5437" "" [] [])
  = Return (VDict [("success", VBool false);
                   ("error", VStr "Connection error: unexpected mimetype: text/html")]).
Proof.
  split; [|split; [|split; [|split; [|split]]]].
  - apply (proj1 (proj2 (relay_structured_result
      (λ _, inr (Response 404 (inl (Exn Exception "Expecting value")) (inr "not found")))
      "list_panes" [] "" (State "http://127.0.0.1:5437" "" [] [])))
      (Response 404 (inl (Exn Exception "Expecting value")) (inr "not found")) "not found");
      [reflexivity | discriminate | reflexivity].
  - apply (proj1 (proj2 (proj2 (relay_structured_result
      (λ _, inl (Exn ClientError "Cannot connect to host 127.0.0.1:5437"))
      "list_panes" [] "" (State "http://127.0.0.1:5437" "" [] []))))
      (Exn ClientError "Cannot connect to host 127.0.0.1:5437")); reflexivity.
  - apply (proj1 (proj2 (proj2 (proj2 (relay_structured_result
      (λ _, inr (Response 200 (inl (Exn Exception "Expecting value")) (inr "oops")))
      "list_panes" [] "" (State "http://127.0.0.1:5437" "" [] [])))))
      (Exn Exception "Expecting value")); reflexivity.
  - apply (proj1 (proj2 (proj2 (proj2 (proj2 (relay_structured_result
      (λ _, inr (Response 200 (inr (VList [VStr "pane-1"])) (inr "[]")))
      "list_panes" [] "" (State "http://127.0.0.1:5437" "" [] []))))))
      (Response 200 (inr (VList [VStr "pane-1"])) (inr "[]"))); reflexivity.
  - apply (proj2 (proj2 (proj2 (proj2 (proj2 (relay_structured_result
      (λ _, inl (exception_of TotalTimeout))
      "list_panes" [] "" (State "http://127.0.0.1:5437" "" [] []))))))
      TotalTimeout); reflexivity.
  - apply (proj2 (proj2 (proj2 (proj2 (proj2 (relay_structured_result
      (λ _, inr (Response 200
                   (inl (exception_of (WrongContentType "unexpected mimetype: text/html")))
                   (inr "<html></html>")))
      "list_panes" [] "" (State "http://127.0.0.1:5437" "" [] []))))))
      (WrongContentType "unexpected mimetype: text/html")); reflexivity.
Defined.

(** C2 as stated fails.  The backend accepts the connection and never
    answers: the total timeout expires, the relay returns the failure with
    error "Error: " and not a connection error.  The body of a 200 answer
    is HTML: the relay returns a connection error and not "Error: ...". *)
Lemma relay_timeout_is_not_connection_error :
  (¬ ∃ message,
       outcome (call_incognide_action (λ _, inl (exception_of TotalTimeout))
                  "list_panes" [] "")
               (State "http://127.0.0.1:5437" "" [] [])
       = Return (VDict [("success", VBool false);
                        ("error", VStr ("Connection error: " +:+ message))])) ∧
  (¬ ∃ message,
       outcome (call_incognide_action
                  (λ _, inr (Response 200
                               (inl (exception_of
                                       (WrongContentType "unexpected mimetype: text/html")))
                               (inr "<html></html>")))
                  "list_panes" [] "")
               (State "http://127.0.0.1:5437" "" [] [])
       = Return (VDict [("success", VBool false);
                        ("error", VStr ("Error: " +:+ message))])).
Proof.
  split; intros [message Heq]; vm_compute in Heq; discriminate Heq.
Qed.

(** C4.  A relay call with a non-empty explicit window id posts that id,
    whatever the registry holds, and leaves the Target Registry as it was,
    whatever the backend answers. *)
Theorem relay_explicit_window_frame backend action args window_id st :
  window_id ≠ "" →
  new_requests (call_incognide_action backend action args window_id) st =
    [action_request (INCOGNIDE_BACKEND_URL st) action args window_id] ∧
  payload_window_id (action_request (INCOGNIDE_BACKEND_URL st) action args window_id) =
    Some (VStr window_id) ∧
  _target_window_id (final (call_incognide_action backend action args window_id) st) =
    _target_window_id st.
Proof.
  intros Hne. rewrite call_incognide_action_requests, payload_window_id_request.
  unfold effective_window. rewrite !decide_False by done.
  split; [done|]. split; [done|]. apply call_incognide_action_globals.
Qed.

Lemma relay_explicit_window_frame_witness :
  new_requests
    (call_incognide_action (λ _, inl (Exn ClientError "refused")) "focus_pane"
       [("paneId", VStr "p1")] "W2")
    (State "http://127.0.0.1:5337" "W1" [] [])
  = [action_request "http://127.0.0.1:5337" "focus_pane" [("paneId", VStr "p1")] "W2"] ∧
  payload_window_id
    (action_request "http://127.0.0.1:5337" "focus_pane" [("paneId", VStr "p1")] "W2")
  = Some (VStr "W2") ∧
  _target_window_id
    (final (call_incognide_action (λ _, inl (Exn ClientError "refused")) "focus_pane"
              [("paneId", VStr "p1")] "W2")
           (State "http://127.0.0.1:5337" "W1" [] []))
  = "W1".
Proof.
  apply (relay_explicit_window_frame (λ _, inl (Exn ClientError "refused")) "focus_pane"
           [("paneId", VStr "p1")] "W2" (State "http://127.0.0.1:5337" "W1" [] [])).
  discriminate.
Defined.

(** ** Target Registry *)

(** C8.  Round trip of the Target Registry.  For every string [w], the
    empty one included, set_target_window succeeds, stores [w] and returns
    a confirmation whose target_window_id is [w]; get_target_window called
    next, or after any calls that do not set the target again, returns
    target_window_id [w] with is_set true exactly when [w] is non-empty. *)
Theorem target_registry_round_trip w calls st :
  Forall (λ bc, is_set_target bc.2 = false) calls →
  let st1 := final (set_target_window w) st in
  outcome (set_target_window w) st =
    Return (json_dumps None (VDict [
      ("success", VBool true);
      ("target_window_id", VStr w);
      ("message", VStr (if decide (w = "")
                        then "Target window cleared (broadcast mode)"
                        else "Target window set to: " +:+ w)) ])) ∧
  _target_window_id st1 = w ∧
  outcome get_target_window (run_session calls st1) =
    Return (json_dumps None (VDict [
      ("success", VBool true);
      ("target_window_id", VStr w);
      ("is_set", VBool (bool_decide (w ≠ ""))) ])).
Proof.
  intros Hcalls st1. split; [|split].
  - unfold outcome. rewrite set_target_window_run. cbn.
    destruct (decide (w = "")) as [->|Hne]; [done|].
    apply truthy_true in Hne. by rewrite Hne.
  - done.
  - unfold outcome, get_target_window. rewrite run_bind. unfold read_target_window_id.
    cbn. destruct (run_session_globals calls st1 Hcalls) as [_ ->].
    cbn. by rewrite truthy_decide.
Qed.

Lemma target_registry_round_trip_witness :
  outcome get_target_window
    (run_session [((λ _, inl (Exn ClientError "refused")), Tool.list_panes)]
       (final (set_target_window "W1") (State "http://127.0.0.1:5437" "W0" [] [])))
  = Return (json_dumps None (VDict [
      ("success", VBool true);
      ("target_window_id", VStr "W1");
      ("is_set", VBool true) ])).
Proof.
  apply (target_registry_round_trip "W1"
           [((λ _, inl (Exn ClientError "refused")), Tool.list_panes)]
           (State "http://127.0.0.1:5437" "W0" [] [])).
  repeat constructor.
Defined.

(** ** One request per backend tool *)

(** C6, as amended.  Every tool call returns exactly one result and never
    raises.  The calls of set_target_window and get_target_window make no
    HTTP request; every other tool call makes exactly one: list_windows one
    GET, each relay wrapper one POST of an Action Request. *)
Theorem one_request_per_backend_tool backend c st :
  (∃ text, outcome (call_tool backend c) st = Return text) ∧
  length (new_requests (call_tool backend c) st) =
    (if is_registry_tool c then 0 else 1)%nat ∧
  (c = Tool.list_windows →
   new_requests (call_tool backend c) st =
   [HttpCall GET (INCOGNIDE_BACKEND_URL st +:+ "/api/studio/windows") None 10]) ∧
  (is_window_tool c = false →
   ∃ action args,
     new_requests (call_tool backend c) st =
     [action_request (INCOGNIDE_BACKEND_URL st) action args (_target_window_id st)]).
Proof.
  split; [apply call_tool_returns|]. split; [|split].
  - destruct (is_window_tool c) eqn:Hw.
    + destruct c; try discriminate Hw; cbn [is_registry_tool].
      * change (call_tool backend Tool.list_windows) with (list_windows backend).
        by rewrite list_windows_requests.
      * by rewrite (registry_tool_requests backend (Tool.set_target_window _)).
      * by rewrite (registry_tool_requests backend Tool.get_target_window).
    + destruct (relay_tool_requests backend c st Hw) as (action & args & ->).
      by destruct c.
  - intros ->. apply list_windows_requests.
  - apply relay_tool_requests.
Qed.

Lemma one_request_per_backend_tool_witness :
  new_requests (call_tool (λ _, inl (Exn ClientError "refused")) Tool.list_windows)
               (State "http://127.0.0.1:5437" "" [] [])
  = [HttpCall GET "http://127.0.0.1:5437/api/studio/windows" None 10].
Proof.
  apply (proj1 (proj2 (proj2 (one_request_per_backend_tool
    (λ _, inl (Exn ClientError "refused")) Tool.list_windows
    (State "http://127.0.0.1:5437" "" [] []))))).
  reflexivity.
Defined.

(** C6 as stated fails: a call of set_target_window makes no HTTP request
    at all. *)
Lemma set_target_window_makes_no_request :
  ¬ ∃ call,
      new_requests
        (call_tool (λ _, inr (Response 200 (inr (VDict [])) (inr "{}")))
                   (Tool.set_target_window "W1"))
        (State "http://127.0.0.1:5437" "" [] [])
      = [call].
Proof. intros [call Hcall]. discriminate Hcall. Qed.

(** ** list_windows *)

(** C9.  list_windows does not go through the relay: it makes one GET of
    [<backend>/api/studio/windows] with a total timeout of 10 seconds, which
    is no Action Request.  Whatever exception ends the exchange, a
    [ClientError] included, it returns the failure object whose error is
    the bare message of the exception, which differs from the message the
    relay would give; only on a status other than 200 is the error
    "HTTP <status>: <body>". *)
Theorem list_windows_own_error_handling backend st :
  let call := HttpCall GET (INCOGNIDE_BACKEND_URL st +:+ "/api/studio/windows") None 10 in
  let returned := outcome (list_windows backend) st in
  new_requests (list_windows backend) st = [call] ∧
  (∀ base action args window, call ≠ action_request base action args window) ∧
  (∀ e,
     exchange_error (backend call) = Some e →
     returned = Return (json_dumps None (VDict [
       ("success", VBool false); ("error", VStr (exn_str e)) ])) ∧
     exn_str e ≠ "Connection error: " +:+ exn_str e ∧
     exn_str e ≠ "Error: " +:+ exn_str e) ∧
  (∀ resp body,
     backend call = inr resp → status resp ≠ 200 → text_body resp = inr body →
     returned = Return (json_dumps None (VDict [
       ("success", VBool false);
       ("error", VStr ("HTTP " +:+ str_of_int (status resp) +:+ ": " +:+ body)) ]))).
Proof.
  intros call returned. subst returned. unfold outcome.
  split; [apply list_windows_requests|]. split; [done|].
  destruct (list_windows_run backend st) as (text & log & -> & ->). fold call. cbn [fst].
  split.
  - intros e He. split; [|split; by apply str_prefix_ne].
    unfold exchange_error in He.
    destruct (backend call) as [e'|[code js tx]]; cbn in *; [congruence|].
    destruct (code =? 200); [destruct js|destruct tx]; congruence.
  - intros resp body -> Hcode Htx. apply Z.eqb_neq in Hcode. by rewrite Hcode, Htx.
Qed.

Lemma list_windows_own_error_handling_witness :
  outcome (list_windows (λ _, inl (Exn ClientError "Cannot connect to host")))
          (State "http://127.0.0.1:5437" "" [] [])
  = Return (json_dumps None (VDict [
      ("success", VBool false); ("error", VStr "Cannot connect to host") ])) ∧
  "Cannot connect to host" ≠ "Connection error: " +:+ "Cannot connect to host" ∧
  "Cannot connect to host" ≠ "Error: " +:+ "Cannot connect to host".
Proof.
  apply (proj1 (proj2 (proj2 (list_windows_own_error_handling
    (λ _, inl (Exn ClientError "Cannot connect to host"))
    (State "http://127.0.0.1:5437" "" [] []))))
    (Exn ClientError "Cannot connect to host")).
  reflexivity.
Defined.

(** ** Argument mappings of the wrappers *)

(** The argument mapping a tool call sends, read off its request. *)
Lemma sent_args_relay backend action args st :
  payload_args <$> new_requests (relay_wrapper backend action args) st = [Some args].
Proof. by rewrite relay_wrapper_requests. Qed.

Lemma open_pane_relay backend pane_type content_id position shell_type :
  open_pane backend pane_type content_id position shell_type =
  relay_wrapper backend "open_pane"
    (let args := [("type", VStr pane_type); ("position", VStr position)] in
     let args :=
       if truthy content_id then
         if String.eqb pane_type "browser"
         then dict_set "url" (VStr content_id) args
         else dict_set "path" (VStr content_id) args
       else args in
     if truthy shell_type then dict_set "shellType" (VStr shell_type) args else args).
Proof. done. Qed.

Lemma sentinel_index_leb index :
  (if 0 <=? index then VInt index else VNone) = sentinel_index index.
Proof.
  unfold sentinel_index. destruct (decide (0 ≤ index)) as [H|H].
  - apply Z.leb_le in H. by rewrite H.
  - apply Z.leb_nle in H. by rewrite H.
Qed.

Lemma open_pane_args pane_type content_id position shell_type :
  (let args := [("type", VStr pane_type); ("position", VStr position)] in
   let args :=
     if truthy content_id then
       if String.eqb pane_type "browser"
       then dict_set "url" (VStr content_id) args
       else dict_set "path" (VStr content_id) args
     else args in
   if truthy shell_type then dict_set "shellType" (VStr shell_type) args else args) =
  [("type", VStr pane_type); ("position", VStr position)] ++
  (if decide (content_id = "") then []
   else if decide (pane_type = "browser")
        then [("url", VStr content_id)]
        else [("path", VStr content_id)]) ++
  (if decide (shell_type = "") then [] else [("shellType", VStr shell_type)]).
Proof.
  cbv zeta.
  destruct (decide (content_id = "")) as [->|Hc]; cbn [truthy].
  - destruct (decide (shell_type = "")) as [->|Hs]; [done|].
    apply truthy_true in Hs. by rewrite Hs.
  - apply truthy_true in Hc. rewrite Hc.
    destruct (decide (pane_type = "browser")) as [->|Hp].
    + destruct (decide (shell_type = "")) as [->|Hs]; [done|].
      apply truthy_true in Hs. by rewrite Hs.
    + apply String.eqb_neq in Hp. rewrite Hp.
      destruct (decide (shell_type = "")) as [->|Hs]; [done|].
      apply truthy_true in Hs. by rewrite Hs.
Qed.

(** Every wrapper is the entry of the table for its call. *)
Lemma call_tool_table backend c :
  is_window_tool c = false →
  call_tool backend c = relay_wrapper backend (wrapper_action c) (wrapper_args c).
Proof.
  destruct c; intros Hc; try discriminate Hc; try reflexivity;
    cbn [call_tool wrapper_action wrapper_args tool_name].
  - by rewrite open_pane_relay, open_pane_args.
  - by rewrite <- sentinel_index_leb.
  - by rewrite <- sentinel_index_leb.
  - by rewrite <- sentinel_index_leb.
  - by rewrite <- sentinel_index_leb.
  - by rewrite <- sentinel_index_leb.
Qed.

(** C7, as amended.  A wrapper has no branching beyond the defaulting of
    its own parameters.  Every wrapper is an entry of a table: it makes the
    one Action Request with the action name and the argument mapping the
    table gives for the call, and serialises the relay's result as it
    comes.  The action name depends on the tool alone, and so do the keys
    of the argument mapping, in their order, for every tool but open_pane.
    A negative index, such as the default -1 of spreadsheet_add_row and of
    presentation_read_slide, is sent as a field that is present and holds
    null; a non-negative index is sent as it is.  open_pane always sends
    type and position, leaves out url/path and shellType when content_id,
    respectively shell_type, is empty, and files content_id under url for a
    browser pane and under path otherwise. *)
Theorem wrapper_argument_defaulting :
  (∀ backend c, is_window_tool c = false →
     call_tool backend c = relay_wrapper backend (wrapper_action c) (wrapper_args c)) ∧
  (∀ backend c st, is_window_tool c = false →
     new_requests (call_tool backend c) st =
     [action_request (INCOGNIDE_BACKEND_URL st) (wrapper_action c) (wrapper_args c)
        (_target_window_id st)]) ∧
  (∀ c c', tool_name c = tool_name c' →
     wrapper_action c = wrapper_action c' ∧
     (tool_name c ≠ "open_pane" →
      dict_keys (wrapper_args c) = dict_keys (wrapper_args c'))) ∧
  (∀ backend index pane_id st,
     payload_args <$>
       new_requests (call_tool backend (Tool.spreadsheet_add_row index pane_id)) st =
     [Some [("paneId", VStr (default "active" pane_id));
            ("index", if decide (0 ≤ default (-1) index)
                      then VInt (default (-1) index) else VNone)]]) ∧
  (∀ backend slide_index pane_id st,
     payload_args <$>
       new_requests
         (call_tool backend (Tool.presentation_read_slide slide_index pane_id)) st =
     [Some [("paneId", VStr (default "active" pane_id));
            ("slideIndex", if decide (0 ≤ default (-1) slide_index)
                           then VInt (default (-1) slide_index) else VNone)]]) ∧
  (∀ backend pane_type content_id position shell_type st,
     payload_args <$>
       new_requests (open_pane backend pane_type content_id position shell_type) st =
     [Some ([("type", VStr pane_type); ("position", VStr position)] ++
            (if decide (content_id = "") then []
             else if decide (pane_type = "browser")
                  then [("url", VStr content_id)]
                  else [("path", VStr content_id)]) ++
            (if decide (shell_type = "") then [] else [("shellType", VStr shell_type)]))]).
Proof.
  split; [apply call_tool_table|].
  split; [|split; [|split; [|split]]].
  - intros backend c st Hc. rewrite call_tool_table by done. apply relay_wrapper_requests.
  - intros c c' Hname.
    destruct c; destruct c'; try discriminate Hname;
      (split; [reflexivity|]); intros Hopen; try reflexivity; by destruct Hopen.
  - intros backend index pane_id st.
    rewrite call_tool_table by done. by rewrite sent_args_relay.
  - intros backend slide_index pane_id st.
    rewrite call_tool_table by done. by rewrite sent_args_relay.
  - intros backend pane_type content_id position shell_type st.
    by rewrite open_pane_relay, open_pane_args, sent_args_relay.
Qed.

Lemma wrapper_argument_defaulting_witness :
  call_tool (λ _, inl (Exn ClientError "refused")) (Tool.spreadsheet_add_row None None) =
  relay_wrapper (λ _, inl (Exn ClientError "refused")) "spreadsheet_add_row"
    [("paneId", VStr "active"); ("index", VNone)] ∧
  new_requests
    (call_tool (λ _, inl (Exn ClientError "refused"))
               (Tool.open_pane "browser" (Some "https://example.org") None None))
    (State "http://127.0.0.1:5437" "" [] []) =
  [action_request "http://127.0.0.1:5437" "open_pane"
     [("type", VStr "browser"); ("position", VStr "right");
      ("url", VStr "https://example.org")] ""].
Proof.
  split.
  - apply (proj1 wrapper_argument_defaulting (λ _, inl (Exn ClientError "refused"))
             (Tool.spreadsheet_add_row None None)).
    reflexivity.
  - apply (proj1 (proj2 wrapper_argument_defaulting) (λ _, inl (Exn ClientError "refused"))
             (Tool.open_pane "browser" (Some "https://example.org") None None)
             (State "http://127.0.0.1:5437" "" [] [])).
    reflexivity.
Defined.

(** C7 as stated fails: called with the sentinel index -1,
    spreadsheet_add_row sends an argument mapping in which the index field
    is present (it holds null), not absent. *)
Lemma sentinel_index_is_sent_as_null :
  ¬ ∀ args,
      payload_args <$>
        new_requests
          (call_tool (λ _, inr (Response 200 (inr (VDict [])) (inr "{}")))
                     (Tool.spreadsheet_add_row (Some (-1)) (Some "active")))
          (State "http://127.0.0.1:5437" "" [] [])
      = [Some args] →
      dict_get "index" args = None.
Proof.
  intros Habsent.
  specialize (Habsent [("paneId", VStr "active"); ("index", VNone)] eq_refl).
  discriminate Habsent.
Qed.

(** ** [json.dumps] and [repr] on examples *)

Example dumps_compact :
  json_dumps None (VDict [("success", VBool true); ("target_window_id", VStr "W1");
                          ("is_set", VBool true)]) =
  "{" +:+ dquote +:+ "success" +:+ dquote +:+ ": true, " +:+
  dquote +:+ "target_window_id" +:+ dquote +:+ ": " +:+ dquote +:+ "W1" +:+ dquote +:+ ", " +:+
  dquote +:+ "is_set" +:+ dquote +:+ ": true}".
Proof. reflexivity. Qed.

Example dumps_indent_2 :
  json_dumps (Some 2%nat) (VDict [("success", VBool false); ("panes", VList [VInt 1; VInt (-20)])]) =
  "{" +:+ nl +:+
  "  " +:+ dquote +:+ "success" +:+ dquote +:+ ": false," +:+ nl +:+
  "  " +:+ dquote +:+ "panes" +:+ dquote +:+ ": [" +:+ nl +:+
  "    1," +:+ nl +:+
  "    -20" +:+ nl +:+
  "  ]" +:+ nl +:+
  "}".
Proof. reflexivity. Qed.

Example dumps_escapes :
  json_dumps None (VStr ("a" +:+ dquote +:+ "b\c" +:+ nl +:+ String "233"%char "")) =
  dquote +:+ "a\" +:+ dquote +:+ "b\\c\n\u00e9" +:+ dquote.
Proof. reflexivity. Qed.

Example repr_floats :
  float_repr <$> [FFinite false 1 17; FFinite false 1 16; FFinite false 1 (-3);
                  FFinite false 1 (-4); FFinite true 12345 2; FFinite false 15 (-10);
                  FFinite false 5 0; FZero true] =
  ["1e+16"; "1000000000000000.0"; "0.0001"; "1e-05"; "-12.345"; "1.5e-11"; "0.5"; "-0.0"].
Proof. reflexivity. Qed.

(** ** Decimal numerals *)

Lemma all_chars_app p a b : all_chars p (a +:+ b) = all_chars p a && all_chars p b.
Proof.
  induction a as [|x a IH]; [done|]. rewrite str_app_cons. cbn.
  by rewrite IH, andb_assoc.
Qed.

Lemma all_chars_repeat p c n : p c = true → all_chars p (repeat_char c n) = true.
Proof. intros Hc. induction n as [|n IH]; [done|]. cbn. by rewrite Hc, IH. Qed.

Lemma all_chars_take p n s : all_chars p s = true → all_chars p (str_take n s) = true.
Proof.
  revert s. induction n as [|n IH]; intros [|c s]; cbn; try done.
  intros [Hc Hs]%andb_prop. by rewrite Hc, IH.
Qed.

Lemma all_chars_drop p n s : all_chars p s = true → all_chars p (str_drop n s) = true.
Proof.
  revert s. induction n as [|n IH]; intros [|c s]; cbn; try done.
  intros [Hc Hs]%andb_prop. by apply IH.
Qed.

Lemma str_drop_nonempty n s : (n < String.length s)%nat → str_drop n s ≠ "".
Proof.
  revert s. induction n as [|n IH]; intros [|c s]; cbn; try done; try lia.
  intros Hn. apply IH. lia.
Qed.

Lemma is_digit19_digit c : is_digit19 c = true → is_digit c = true.
Proof.
  unfold is_digit19, is_digit. cbn zeta.
  intros [H1 H2]%andb_prop. apply N.leb_le in H1, H2.
  apply andb_true_intro. split; apply N.leb_le; lia.
Qed.

Lemma pretty_N_char_digit x : is_digit (pretty_N_char x) = true.
Proof.
  destruct x as [|p]; [done|].
  do 4 (destruct p as [p|p|]; try done).
Qed.

Lemma pretty_N_char_digit19 x : (0 < x < 10)%N → is_digit19 (pretty_N_char x) = true.
Proof.
  intros Hx.
  assert (x = 1 ∨ x = 2 ∨ x = 3 ∨ x = 4 ∨ x = 5 ∨ x = 6 ∨ x = 7 ∨ x = 8 ∨ x = 9)%N
    as Hcases by lia.
  destruct Hcases as [->|[->|[->|[->|[->|[->|[->|[->| ->]]]]]]]]; done.
Qed.

(** The digits of a positive number: a first digit that is not zero, then
    digits. *)
Lemma pretty_N_go_digits x s :
  (0 < x)%N → all_chars is_digit s = true →
  ∃ c s', pretty_N_go x s = String c s' ∧
          is_digit19 c = true ∧ all_chars is_digit s' = true.
Proof.
  revert s. induction (N.lt_wf_0 x) as [x _ IH]. intros s Hx Hs.
  rewrite pretty_N_go_step by done.
  destruct (decide (x < 10)%N) as [Hlt|Hge].
  - rewrite (N.div_small x 10), (N.mod_small x 10), pretty_N_go_0 by done.
    eexists _, _. split; [done|]. split; [|done].
    apply pretty_N_char_digit19. lia.
  - apply IH.
    + apply N.div_lt; lia.
    + apply N.div_str_pos. lia.
    + cbn. by rewrite pretty_N_char_digit, Hs.
Qed.

Lemma pretty_positive_digits (p : positive) :
  ∃ c s, pretty p = String c s ∧ is_digit19 c = true ∧ all_chars is_digit s = true.
Proof.
  unfold pretty, pretty_positive, pretty, pretty_N.
  rewrite decide_False by done. by apply pretty_N_go_digits.
Qed.

Lemma pretty_positive_int (p : positive) : json_int (pretty p).
Proof.
  destruct (pretty_positive_digits p) as (c & s & -> & Hc & Hs). by constructor.
Qed.

Lemma pretty_positive_all_digits (p : positive) : json_digits (pretty p).
Proof.
  destruct (pretty_positive_digits p) as (c & s & -> & Hc & Hs).
  split; [done|]. cbn. by rewrite (is_digit19_digit c Hc), Hs.
Qed.

(** A number with neither fraction nor exponent. *)
Lemma json_number_int minus i :
  minus = "" ∨ minus = "-" → json_int i → json_number (minus +:+ i).
Proof.
  intros Hm Hi. rewrite <- (str_app_nil_r i).
  rewrite <- (str_app_nil_r (i +:+ "")) at 1.
  rewrite (str_app_assoc i "" ""). constructor; try done; constructor.
Qed.

(** [str(n)] is a JSON number for every integer [n]. *)
Lemma str_of_int_number n : json_number (str_of_int n).
Proof.
  unfold str_of_int. destruct n as [|p|p].
  - apply (json_number_int "" "0"); [by left|constructor].
  - change (pretty (Z.pos p)) with ("" +:+ pretty p).
    apply json_number_int; [by left|apply pretty_positive_int].
  - change (pretty (Z.neg p)) with ("-" +:+ pretty p).
    apply json_number_int; [by right|apply pretty_positive_int].
Qed.

Lemma str_of_nonneg_digits n : 0 ≤ n → json_digits (str_of_int n).
Proof.
  unfold str_of_int. destruct n as [|p|p]; [done| |lia].
  intros _. change (pretty (Z.pos p)) with (pretty p). apply pretty_positive_all_digits.
Qed.

(** ** Strings and white space *)

Lemma json_ws_nil : json_ws "".
Proof. done. Qed.

Lemma json_ws_newline_indent indent level : json_ws (newline_indent indent level).
Proof.
  destruct indent as [k|]; [|done]. unfold newline_indent, json_ws, nl.
  rewrite str_app_cons. cbn. by apply all_chars_repeat.
Qed.

Lemma hex_char_hexdig n : is_hexdig (hex_char n) = true.
Proof.
  destruct n as [|p]; [done|].
  do 4 (destruct p as [p|p|]; try done).
Qed.

(** What replaces a character is a sequence of JSON characters. *)
Lemma escape_char_chars c rest : json_chars rest → json_chars (escape_char c +:+ rest).
Proof.
  intros Hrest. unfold escape_char. cbn zeta.
  destruct (N_of_ascii c =? 34)%N eqn:H34.
  { by apply (chars_escape "034"%char). }
  destruct (N_of_ascii c =? 92)%N eqn:H92.
  { by apply (chars_escape "\"%char). }
  destruct (N_of_ascii c =? 10)%N.
  { by apply (chars_escape "n"%char). }
  destruct (N_of_ascii c =? 13)%N.
  { by apply (chars_escape "r"%char). }
  destruct (N_of_ascii c =? 9)%N.
  { by apply (chars_escape "t"%char). }
  destruct (N_of_ascii c =? 12)%N.
  { by apply (chars_escape "f"%char). }
  destruct (N_of_ascii c =? 8)%N.
  { by apply (chars_escape "b"%char). }
  destruct ((32 <=? N_of_ascii c)%N && (N_of_ascii c <=? 126)%N) eqn:Hprintable.
  - apply andb_prop in Hprintable as [H32 _].
    apply chars_plain; [|done]. unfold is_unescaped. cbn zeta.
    by rewrite H32, H34, H92.
  - apply (chars_unicode _ _ _ _ rest); auto using hex_char_hexdig.
Qed.

Lemma escape_chars_chars s : json_chars (escape_chars s).
Proof.
  induction s as [|c s IH]; [constructor|]. cbn. by apply escape_char_chars.
Qed.

Lemma encode_basestring_ascii_string s : json_string (encode_basestring_ascii s).
Proof. constructor. apply escape_chars_chars. Qed.

(** ** Floats *)

(** Equations between concatenations of strings. *)
Ltac str_eq :=
  repeat (rewrite str_app_nil_r || rewrite str_app_assoc ||
          rewrite str_app_cons || rewrite str_app_nil_l);
  reflexivity.

Lemma json_number_parts minus i f e s :
  s = minus +:+ i +:+ f +:+ e →
  minus = "" ∨ minus = "-" → json_int i → json_frac f → json_exp e →
  json_number s.
Proof. intros ->. by constructor. Qed.

Lemma sign_minus (negative : bool) :
  (if negative then "-" else "") = "" ∨ (if negative then "-" else "") = "-".
Proof. destruct negative; auto. Qed.

Lemma exp_str_exp e : json_exp ("e" +:+ exp_str e).
Proof.
  unfold exp_str. apply exp_some; [by left|destruct (e <? 0); auto|].
  destruct (str_of_nonneg_digits (Z.abs e)) as [Hne Hdigits]; [lia|].
  split.
  - destruct (Z.abs e <? 10); [done|]. by rewrite str_app_nil_l.
  - rewrite all_chars_app, Hdigits. by destruct (Z.abs e <? 10).
Qed.

(** The [repr] of a finite float is a JSON number. *)
Lemma float_repr_number x :
  finite_floats (VFloat x) = true → json_number (float_repr x).
Proof.
  destruct x as [|negative|negative|negative digits decpt]; cbn; try done; intros _.
  { apply (json_number_parts (if negative then "-" else "") "0" ".0" "");
      [by destruct negative|apply sign_minus|constructor|by apply frac_some|constructor]. }
  destruct (pretty_positive_digits digits) as (c & s & -> & Hc & Hs).
  pose proof (is_digit19_digit c Hc) as Hc'.
  cbn [String.length str_take str_drop].
  destruct ((decpt <=? -4) || (16 <? decpt)) eqn:Hsci.
  { (* scientific notation *)
    apply (json_number_parts (if negative then "-" else "") (String c "")
             (if 1 <? Z.of_nat (S (String.length s)) then "." +:+ s else "")
             ("e" +:+ exp_str (decpt - 1)));
      [str_eq|apply sign_minus|by constructor| |apply exp_str_exp].
    destruct (1 <? Z.of_nat (S (String.length s))) eqn:Hlen; [|constructor].
    apply frac_some. split; [|done]. apply Z.ltb_lt in Hlen. destruct s; [cbn in Hlen; lia|done]. }
  apply orb_false_elim in Hsci as [_ Hle%Z.ltb_ge].
  destruct (decpt <=? 0) eqn:Hneg.
  { (* 0.000ddd *)
    apply (json_number_parts (if negative then "-" else "") "0"
             ("." +:+ repeat_char "0" (Z.to_nat (- decpt)) +:+ String c s) "");
      [str_eq|apply sign_minus|constructor| |constructor].
    apply frac_some. split.
    - destruct (repeat_char "0" (Z.to_nat (- decpt))); done.
    - rewrite all_chars_app, all_chars_repeat by done. cbn. by rewrite Hc', Hs. }
  apply Z.leb_gt in Hneg.
  destruct (Z.of_nat (S (String.length s)) <=? decpt) eqn:Hint.
  { (* ddd000.0 *)
    apply (json_number_parts (if negative then "-" else "")
             (String c s +:+ repeat_char "0" (Z.to_nat (decpt - Z.of_nat (S (String.length s)))))
             ".0" "");
      [str_eq|apply sign_minus| |by apply frac_some|constructor].
    rewrite str_app_cons. constructor; [done|].
    by rewrite all_chars_app, Hs, all_chars_repeat. }
  apply Z.leb_gt in Hint.
  (* dd.ddd *)
  destruct (Z.to_nat decpt) as [|k] eqn:Hk; [lia|].
  apply (json_number_parts (if negative then "-" else "")
           (String c (str_take k s)) ("." +:+ str_drop k s) "");
    [str_eq|apply sign_minus| | |constructor].
  - constructor; [done|]. by apply all_chars_take.
  - apply frac_some. split; [|by apply all_chars_drop].
    apply str_drop_nonempty. lia.
Qed.

(** ** The output of [json.dumps] is a JSON text *)

Lemma pyval_nested_ind (P : pyval → Prop) :
  P VNone →
  (∀ b, P (VBool b)) →
  (∀ n, P (VInt n)) →
  (∀ x, P (VFloat x)) →
  (∀ s, P (VStr s)) →
  (∀ items, Forall P items → P (VList items)) →
  (∀ items, Forall (λ kv, P kv.2) items → P (VDict items)) →
  ∀ o, P o.
Proof.
  intros HNone HBool HInt HFloat HStr HList HDict.
  fix IH 1.
  intros [| b | n | x | s | items | items];
    [exact HNone|apply HBool|apply HInt|apply HFloat|apply HStr| |].
  - apply HList. revert items. fix IHitems 1.
    intros [|o items]; constructor; [apply IH|apply IHitems].
  - apply HDict. revert items. fix IHitems 1.
    intros [|[k o] items]; constructor; [apply IH|apply IHitems].
Qed.

Lemma join_cons2 sep p q rest :
  join sep (p :: q :: rest) = p +:+ sep +:+ join sep (q :: rest).
Proof. done. Qed.

Section separators.
Context (sepw wend : string).
Context (Hsep : json_ws sepw) (Hend : json_ws wend).

(** Values joined by a comma and white space, inside white space. *)
Lemma json_elements_join (enc : pyval → string) items :
  items ≠ [] →
  Forall (λ o, json_value (enc o)) items →
  ∀ w0, json_ws w0 →
  json_elements (w0 +:+ join ("," +:+ sepw) (map enc items) +:+ wend).
Proof.
  intros Hne Hitems.
  induction Hitems as [|o items Ho Hrest IH]; [done|]. intros w0 Hw0.
  destruct items as [|o' items].
  - cbn [map join]. by apply elements_last.
  - replace (w0 +:+ join ("," +:+ sepw) (map enc (o :: o' :: items)) +:+ wend)
      with (w0 +:+ enc o +:+ "" +:+ "," +:+
            (sepw +:+ join ("," +:+ sepw) (map enc (o' :: items)) +:+ wend))
      by (cbn [map]; rewrite join_cons2; str_eq).
    apply elements_more; [done..|]. by apply IH.
Qed.

(** Members joined by a comma and white space, inside white space. *)
Lemma json_members_join (enc : pyval → string) (items : list (string * pyval)) :
  items ≠ [] →
  Forall (λ kv, json_value (enc kv.2)) items →
  ∀ w0, json_ws w0 →
  json_members
    (w0 +:+
     join ("," +:+ sepw)
       (map (λ kv, encode_basestring_ascii kv.1 +:+ key_separator +:+ enc kv.2) items) +:+
     wend).
Proof.
  intros Hne Hitems.
  induction Hitems as [|[k o] items Ho Hrest IH]; [done|]. intros w0 Hw0.
  destruct items as [|kv' items].
  - cbn [map join fst snd].
    replace (w0 +:+ (encode_basestring_ascii k +:+ key_separator +:+ enc o) +:+ wend)
      with (w0 +:+ encode_basestring_ascii k +:+ "" +:+ ":" +:+ " " +:+ enc o +:+ wend)
      by (unfold key_separator; str_eq).
    apply members_last; [done|apply encode_basestring_ascii_string|done..].
  - set (member := λ kv : string * pyval,
                     encode_basestring_ascii kv.1 +:+ key_separator +:+ enc kv.2) in *.
    replace (w0 +:+ join ("," +:+ sepw) (map member ((k, o) :: kv' :: items)) +:+ wend)
      with (w0 +:+ encode_basestring_ascii k +:+ "" +:+ ":" +:+ " " +:+ enc o +:+ "" +:+
            "," +:+ (sepw +:+ join ("," +:+ sepw) (map member (kv' :: items)) +:+ wend))
      by (cbn [map]; rewrite join_cons2;
          change (member (k, o))
            with (encode_basestring_ascii k +:+ key_separator +:+ enc o);
          unfold key_separator; str_eq).
    apply members_more;
      [done|apply encode_basestring_ascii_string|done..|].
    by apply IH.
Qed.
End separators.

Lemma separator_shape indent level :
  ∃ sepw, json_ws sepw ∧
    item_separator indent +:+ newline_indent indent level = "," +:+ sepw.
Proof.
  destruct indent as [k|].
  - exists (newline_indent (Some k) level). split; [apply json_ws_newline_indent|done].
  - by exists " ".
Qed.

Lemma iterencode_list indent level items :
  items ≠ [] →
  iterencode indent level (VList items) =
  "[" +:+ (newline_indent indent (S level) +:+
           join (item_separator indent +:+ newline_indent indent (S level))
                (map (iterencode indent (S level)) items) +:+
           newline_indent indent level) +:+ "]".
Proof. destruct items; [done|]. intros _. cbn [iterencode]. str_eq. Qed.

Lemma iterencode_dict indent level items :
  items ≠ [] →
  iterencode indent level (VDict items) =
  "{" +:+ (newline_indent indent (S level) +:+
           join (item_separator indent +:+ newline_indent indent (S level))
                (map (λ kv, encode_basestring_ascii kv.1 +:+ key_separator +:+
                            iterencode indent (S level) kv.2) items) +:+
           newline_indent indent level) +:+ "}".
Proof. destruct items; [done|]. intros _. cbn [iterencode]. str_eq. Qed.

(** Every value free of NaN and infinities is written as a JSON value, at
    every indentation. *)
Lemma iterencode_value indent o :
  finite_floats o = true → ∀ level, json_value (iterencode indent level o).
Proof.
  induction o as [| b | n | x | s | items IH | items IH] using pyval_nested_ind;
    intros Hfinite level.
  - apply value_null.
  - destruct b; [apply value_true|apply value_false].
  - apply value_number, str_of_int_number.
  - apply value_number. pose proof (float_repr_number x Hfinite) as Hrepr.
    by destruct x as [|[]| |].
  - apply value_string, encode_basestring_ascii_string.
  - destruct (decide (items = [])) as [->|Hne].
    { apply (value_array_empty ""), json_ws_nil. }
    rewrite iterencode_list by done.
    destruct (separator_shape indent (S level)) as (sepw & Hsepw & ->).
    apply value_array. apply json_elements_join; auto using json_ws_newline_indent.
    cbn [finite_floats] in Hfinite. rewrite forallb_forall in Hfinite.
    apply Forall_forall. intros o Ho. eapply Forall_forall in IH; [|done].
    apply IH, Hfinite. by apply list_elem_of_In.
  - destruct (decide (items = [])) as [->|Hne].
    { apply (value_object_empty ""), json_ws_nil. }
    rewrite iterencode_dict by done.
    destruct (separator_shape indent (S level)) as (sepw & Hsepw & ->).
    apply value_object.
    apply (json_members_join sepw _ Hsepw (json_ws_newline_indent indent level)
             (iterencode indent (S level)));
      auto using json_ws_newline_indent.
    cbn [finite_floats] in Hfinite. rewrite forallb_forall in Hfinite.
    apply Forall_forall. intros kv Hkv. eapply Forall_forall in IH; [|done].
    apply IH, (Hfinite kv). by apply list_elem_of_In.
Qed.

Theorem json_dumps_text indent o :
  finite_floats o = true → json_text (json_dumps indent o).
Proof.
  intros Hfinite. exists "", (json_dumps indent o), "".
  split; [done|]. split; [by apply iterencode_value|]. split; [done|].
  by rewrite str_app_nil_r.
Qed.

(** ** First characters *)

Lemma json_number_head s :
  json_number s → ∃ c rest, s = String c rest ∧ (c = "-"%char ∨ is_digit c = true).
Proof.
  intros [minus i f e Hminus Hi Hf He].
  destruct Hminus as [-> | ->]; [|by eexists _, _; split; [|left]].
  rewrite str_app_nil_l. destruct Hi as [|c ds Hc Hds].
  - by eexists _, _; split; [|right].
  - rewrite str_app_cons. eexists _, _. split; [done|]. right. by apply is_digit19_digit.
Qed.

Lemma json_value_head v :
  json_value v → ∃ c rest, v = String c rest ∧ is_value_start c = true.
Proof.
  intros Hv. destruct Hv as [| | |s Hs|s Hs|w Hw|body Hbody|w Hw|body Hbody];
    try (by eexists _, _).
  - destruct (json_number_head s Hs) as (c & rest & -> & [-> | Hc]);
      eexists _, _; (split; [done|]); [done|].
    unfold is_value_start. cbn zeta. by rewrite Hc.
  - destruct Hs as [body Hbody]. by eexists _, _.
Qed.

(** A text that starts with a character no value and no white space starts
    with is no JSON text. *)
Lemma json_text_head c rest :
  json_text (String c rest) → is_ws c = true ∨ is_value_start c = true.
Proof.
  intros (w1 & v & w2 & Hw1 & Hv & _ & Heq).
  destruct w1 as [|c1 w1].
  - destruct (json_value_head v Hv) as (c' & rest' & -> & Hc').
    rewrite str_app_nil_l, str_app_cons in Heq. injection Heq as -> _. by right.
  - rewrite str_app_cons in Heq. injection Heq as -> _.
    unfold json_ws in Hw1. cbn in Hw1. apply andb_prop in Hw1 as [Hc1 _]. by left.
Qed.

(** A pretty-printed text that opens a brace goes on with the closing
    brace or with a line break. *)
Lemma pretty_printed_brace k o rest :
  json_dumps (Some k) o = String "{" rest →
  rest = "}" ∨ ∃ rest', rest = String "010" rest'.
Proof.
  unfold json_dumps.
  destruct o as [| b | n | x | s | items | items]; intros Heq.
  - discriminate Heq.
  - by destruct b.
  - destruct (json_number_head _ (str_of_int_number n)) as (c & r & Hn & Hc).
    cbn [iterencode] in Heq. rewrite Hn in Heq. injection Heq as -> _.
    by destruct Hc.
  - destruct x as [|[]|negative|negative digits decpt]; try discriminate Heq.
    + by destruct negative.
    + destruct (json_number_head _ (float_repr_number (FFinite negative digits decpt) eq_refl))
        as (c & r & Hn & Hc).
      cbn [iterencode floatstr] in Heq. rewrite Hn in Heq. injection Heq as -> _.
      by destruct Hc.
  - discriminate Heq.
  - destruct (decide (items = [])) as [->|Hne]; [discriminate Heq|].
    rewrite iterencode_list in Heq by done. discriminate Heq.
  - destruct (decide (items = [])) as [->|Hne].
    + injection Heq as <-. by left.
    + rewrite iterencode_dict in Heq by done.
      rewrite str_app_cons, str_app_nil_l in Heq. injection Heq as <-.
      right. unfold newline_indent, nl. rewrite !str_app_cons. by eexists.
Qed.

(** ** What the tools return *)

Lemma finite_floats_action_result answer :
  finite_answer answer = true → finite_floats (action_result answer) = true.
Proof.
  unfold finite_answer, action_result.
  destruct answer as [e|[code js tx]]; cbn; [done|].
  destruct (code =? 200); [by destruct js|by destruct tx].
Qed.

(** The text a window tool or a relay wrapper returns, as the [json.dumps]
    it comes from. *)
Lemma call_tool_text backend c st :
  ∃ indent o,
    outcome (call_tool backend c) st = Return (json_dumps indent o) ∧
    ((∀ call, finite_answer (backend call) = true) → finite_floats o = true) ∧
    (is_window_tool c = false → indent = Some 2%nat) ∧
    (is_registry_tool c = true → indent = None) ∧
    (c = Tool.list_windows →
     indent =
       if parsed_ok (backend (HttpCall GET (INCOGNIDE_BACKEND_URL st +:+ "/api/studio/windows")
                                None 10))
       then Some 2%nat else None).
Proof.
  unfold outcome. destruct (is_window_tool c) eqn:Hw.
  - destruct c; try discriminate Hw; cbn [call_tool].
    + destruct (list_windows_run backend st) as (text & log & -> & ->). cbn [fst].
      set (call := HttpCall GET _ None 10).
      destruct (backend call) as [e|[code js tx]] eqn:Hanswer; cbn.
      * by exists None, (failure (exn_str e)).
      * destruct (code =? 200); cbn.
        -- destruct js as [e|v].
           ++ by exists None, (failure (exn_str e)).
           ++ exists (Some 2%nat), v. repeat split; try done.
              intros Hfinite. specialize (Hfinite call). by rewrite Hanswer in Hfinite.
        -- destruct tx as [e|body]; by eexists None, (failure _).
    + by eexists None, _.
    + by eexists None, _.
  - destruct (call_tool_relay c Hw) as (action & args & ->).
    destruct (relay_wrapper_run backend action args st) as [log ->]. cbn [fst].
    eexists (Some 2%nat), _. split; [done|]. split; [|split; [done|split]].
    + intros Hfinite. apply finite_floats_action_result, Hfinite.
    + by destruct c.
    + by intros ->.
Qed.

(** C5, as amended.  Every tool invocation returns a string and raises
    nothing, whatever the backend does.  The string is a syntactically
    valid JSON text provided the bodies the backend sends with status 200
    parse to values without NaN and without infinities.  It is
    pretty-printed (indent 2) for the relay wrappers and, on a parsed 200
    answer, for list_windows; it is compact (no indent) for
    set_target_window, for get_target_window and for the failures of
    list_windows. *)
Theorem tool_output_is_json backend c st :
  ∃ text,
    outcome (call_tool backend c) st = Return text ∧
    ((∀ call, finite_answer (backend call) = true) → json_text text) ∧
    (is_window_tool c = false → pretty_printed_with 2 text) ∧
    (is_registry_tool c = true → compact text) ∧
    (c = Tool.list_windows →
     if parsed_ok (backend (HttpCall GET (INCOGNIDE_BACKEND_URL st +:+ "/api/studio/windows")
                              None 10))
     then pretty_printed_with 2 text else compact text).
Proof.
  destruct (call_tool_text backend c st) as (indent & o & Hret & Hfin & Hrelay & Hreg & Hlist).
  exists (json_dumps indent o). split; [done|]. split; [|split; [|split]].
  - intros Hfinite. by apply json_dumps_text, Hfin.
  - intros Hw. rewrite (Hrelay Hw). by exists o.
  - intros Hr. rewrite (Hreg Hr). by exists o.
  - intros Hl. rewrite (Hlist Hl). destruct (parsed_ok _); by exists o.
Qed.

Lemma tool_output_is_json_witness :
  ∃ text,
    outcome (call_tool (λ _, inl (Exn ClientError "Cannot connect to host"))
                       (Tool.list_panes))
            (State "http://127.0.0.1:5437" "" [] []) = Return text ∧
    json_text text ∧ pretty_printed_with 2 text.
Proof.
  destruct (tool_output_is_json (λ _, inl (Exn ClientError "Cannot connect to host"))
              Tool.list_panes (State "http://127.0.0.1:5437" "" [] []))
    as (text & Hret & Hjson & Hpretty & _).
  exists text. split; [exact Hret|]. split.
  - apply Hjson. reflexivity.
  - apply Hpretty. reflexivity.
Defined.

(** C5 as stated fails: what set_target_window returns is on one line, not
    pretty-printed. *)
Lemma set_target_window_not_pretty_printed :
  ¬ ∃ text,
      outcome (call_tool (λ _, inr (Response 200 (inr (VDict [])) (inr "{}")))
                         (Tool.set_target_window "W1"))
              (State "http://127.0.0.1:5437" "" [] []) = Return text ∧
      pretty_printed text.
Proof.
  intros (text & Hret & k & o & Ho).
  injection Hret as <-. symmetry in Ho.
  apply pretty_printed_brace in Ho as [Ho|[rest Ho]]; discriminate Ho.
Qed.

(** A body that parses to NaN comes back from a wrapper as the three
    letters NaN, which is no JSON text: the proviso of the amended C5 is
    needed. *)
Lemma nan_answer_is_not_json :
  outcome (call_tool (λ _, inr (Response 200 (inr (VFloat FNan)) (inr "NaN")))
                     (Tool.spreadsheet_stats 0 None))
          (State "http://127.0.0.1:5437" "" [] []) = Return "NaN" ∧
  ¬ json_text "NaN".
Proof.
  split; [reflexivity|]. intros [Hws|Hstart]%json_text_head; discriminate.
Qed.

(** ** The process from its start *)

Lemma run_session_backend_url calls st :
  INCOGNIDE_BACKEND_URL (run_session calls st) = INCOGNIDE_BACKEND_URL st.
Proof.
  revert st. induction calls as [|[backend c] calls IH]; intros st; [done|].
  cbn. rewrite IH. apply call_tool_globals.
Qed.

(** X12.  The backend URL is the one detected when the module is loaded,
    for the whole life of the process: no tool call changes it.  The target
    registry starts empty, so until a target is set, wrappers post no
    window_id. *)
Lemma process_start environ connects calls backend c :
  INCOGNIDE_BACKEND_URL (run_session calls (module_init environ connects)) =
    (_detect_backend_url environ connects).1 ∧
  (Forall (λ bc, is_set_target bc.2 = false) calls →
   is_window_tool c = false →
   ∃ call,
     new_requests (call_tool backend c)
       (run_session calls (module_init environ connects)) = [call] ∧
     payload_window_id call = None).
Proof.
  split; [by rewrite run_session_backend_url|].
  intros Hcalls Hc.
  destruct (relay_tool_requests backend c
              (run_session calls (module_init environ connects)) Hc)
    as (action & args & ->).
  destruct (run_session_globals calls (module_init environ connects) Hcalls) as [_ ->].
  eexists. split; [done|]. by rewrite payload_window_id_request.
Qed.

(** ** The probe loop on any list of ports *)

(** X1.  The probe loop returns the URL of the first port of the list that
    accepts a connection, having probed the ports up to and including that
    one and no port after it; when no port accepts, it returns nothing and
    has probed them all. *)
Theorem probe_loop_first_accepting connects ports probed :
  probe_loop connects ports probed =
  match list_find (λ port, connects port = true) ports with
  | Some (i, port) =>
      (Some ("http://127.0.0.1:" +:+ str_of_int port), probed ++ take (S i) ports)
  | None => (None, probed ++ ports)
  end.
Proof.
  revert probed. induction ports as [|port ports IH]; intros probed.
  - cbn. by rewrite (right_id_L [] (++)).
  - cbn [probe_loop list_find]. destruct (connects port) eqn:Hport.
    + rewrite decide_True by done. cbn. by rewrite take_0.
    + rewrite decide_False by (by intros ?). rewrite IH.
      destruct (list_find _ ports) as [[i port']|]; cbn;
        by rewrite <- (assoc_L (++)).
Qed.

Lemma probe_loop_candidates connects :
  probe_loop connects candidate_ports [] =
  if connects 5337 then (Some "http://127.0.0.1:5337", [5337])
  else if connects 5437 then (Some "http://127.0.0.1:5437", [5337; 5437])
  else (None, [5337; 5437]).
Proof. cbn. destruct (connects 5337); [done|]. by destruct (connects 5437). Qed.

(** X2.  Whatever the environment and the network, the detected URL is
    never empty and at most the two candidate ports are probed, in order.
    Without an override the URL is the loopback URL of a candidate port,
    and if any candidate accepts a connection, the chosen port is one that
    accepted and is the last one probed. *)
Theorem detect_backend_url_result (environ : gmap string string) (connects : Z → bool) :
  (_detect_backend_url environ connects).1 ≠ "" ∧
  (_detect_backend_url environ connects).2 `prefix_of` candidate_ports ∧
  (default "" (environ !! "INCOGNIDE_BACKEND_URL") = "" →
   ∃ port,
     port ∈ candidate_ports ∧
     (_detect_backend_url environ connects).1 = "http://127.0.0.1:" +:+ str_of_int port ∧
     (Exists (λ p, connects p = true) candidate_ports →
      connects port = true ∧
      last (_detect_backend_url environ connects).2 = Some port)).
Proof.
  unfold _detect_backend_url.
  destruct (truthy (default "" (environ !! "INCOGNIDE_BACKEND_URL"))) eqn:Hexplicit.
  - cbn. split; [by apply truthy_true|]. split; [by exists candidate_ports|].
    intros Hempty. rewrite Hempty in Hexplicit. discriminate Hexplicit.
  - rewrite probe_loop_candidates.
    destruct (connects 5337) eqn:H1; [|destruct (connects 5437) eqn:H2]; cbn.
    + split; [done|]. split; [by exists [5437]|]. intros _.
      exists 5337. split; [set_solver|]. done.
    + split; [done|]. split; [done|]. intros _.
      exists 5437. split; [set_solver|]. done.
    + split; [done|]. split; [done|]. intros _.
      exists 5437. split; [set_solver|]. split; [done|].
      intros Hsome. apply Exists_cons in Hsome as [Hp|Hsome]; [congruence|].
      apply Exists_cons in Hsome as [Hp|Hsome]; [congruence|].
      by apply Exists_nil in Hsome.
Qed.

Lemma detect_backend_url_result_witness :
  ∃ port,
    port ∈ candidate_ports ∧
    (_detect_backend_url ∅ (λ p, bool_decide (p = 5437))).1 =
      "http://127.0.0.1:" +:+ str_of_int port ∧
    (Exists (λ p, bool_decide (p = 5437) = true) candidate_ports →
     bool_decide (port = 5437) = true ∧
     last (_detect_backend_url ∅ (λ p, bool_decide (p = 5437))).2 = Some port).
Proof.
  apply (proj2 (proj2 (detect_backend_url_result ∅ (λ p, bool_decide (p = 5437))))).
  reflexivity.
Defined.

(** ** Sessions *)

Lemma last_target_other backend c calls current :
  is_set_target c = false →
  last_target ((backend, c) :: calls) current = last_target calls current.
Proof. by destruct c. Qed.

(** X3.  The last set_target_window of a session wins: after any sequence
    of tool calls the registry holds the argument of the last
    set_target_window in it (the initial target if there is none), this is
    what get_target_window then reports, and it is the window a relay
    wrapper then posts to. *)
Theorem registry_last_set_wins calls backend c st :
  let target := last_target calls (_target_window_id st) in
  _target_window_id (run_session calls st) = target ∧
  outcome get_target_window (run_session calls st) =
    Return (json_dumps None (VDict [
      ("success", VBool true);
      ("target_window_id", VStr target);
      ("is_set", VBool (bool_decide (target ≠ ""))) ])) ∧
  (is_window_tool c = false →
   ∃ call,
     new_requests (call_tool backend c) (run_session calls st) = [call] ∧
     payload_window_id call = if decide (target = "") then None else Some (VStr target)).
Proof.
  assert (_target_window_id (run_session calls st) =
          last_target calls (_target_window_id st)) as Htarget.
  { revert st. induction calls as [|[b c'] calls IH]; intros st; [done|].
    cbn [run_session]. rewrite IH. destruct (is_set_target c') eqn:Hset.
    - by destruct c'.
    - rewrite last_target_other by done.
      by rewrite (proj2 (call_tool_globals b c' st) Hset). }
  cbn zeta. split; [done|]. split.
  - unfold outcome, get_target_window. rewrite run_bind. unfold read_target_window_id.
    cbn. by rewrite Htarget, truthy_decide.
  - intros Hc.
    destruct (relay_tool_requests backend c (run_session calls st) Hc)
      as (action & args & ->).
    eexists. split; [done|]. by rewrite payload_window_id_request, Htarget.
Qed.

Lemma registry_last_set_wins_witness :
  ∃ call,
    new_requests
      (call_tool (λ _, inl (Exn ClientError "refused")) (Tool.zen_mode None))
      (run_session
         [((λ _, inl (Exn ClientError "refused")), Tool.set_target_window "W1");
          ((λ _, inl (Exn ClientError "refused")), Tool.list_panes);
          ((λ _, inl (Exn ClientError "refused")), Tool.set_target_window "W2");
          ((λ _, inl (Exn ClientError "refused")), Tool.get_target_window)]
         (State "http://127.0.0.1:5437" "" [] [])) = [call] ∧
    payload_window_id call = Some (VStr "W2").
Proof.
  apply (proj2 (proj2 (registry_last_set_wins
    [((λ _, inl (Exn ClientError "refused")), Tool.set_target_window "W1");
     ((λ _, inl (Exn ClientError "refused")), Tool.list_panes);
     ((λ _, inl (Exn ClientError "refused")), Tool.set_target_window "W2");
     ((λ _, inl (Exn ClientError "refused")), Tool.get_target_window)]
    (λ _, inl (Exn ClientError "refused")) (Tool.zen_mode None)
    (State "http://127.0.0.1:5437" "" [] [])))).
  reflexivity.
Defined.

(** What one tool call adds to the error stream and to the requests. *)
Lemma call_tool_effects backend c st :
  ∃ log reqs,
    stderr (final (call_tool backend c) st) = stderr st ++ log ∧
    requests (final (call_tool backend c) st) = requests st ++ reqs ∧
    length reqs = (if is_registry_tool c then 0 else 1)%nat.
Proof.
  unfold final. destruct (is_window_tool c) eqn:Hw.
  - destruct c; try discriminate Hw; cbn [call_tool].
    + destruct (list_windows_run backend st) as (text & log & -> & _).
      by eexists _, [_].
    + exists [], []. cbn. by rewrite !(right_id_L [] (++)).
    + exists [], []. cbn. by rewrite !(right_id_L [] (++)).
  - destruct (call_tool_relay c Hw) as (action & args & ->).
    destruct (relay_wrapper_run backend action args st) as [log ->].
    eexists _, [_]. by destruct c.
Qed.

(** X4.  A session makes exactly as many HTTP requests as it has calls of
    tools other than set_target_window and get_target_window, and it only
    ever appends: the requests and the error stream it started with stay as
    the beginning of what it leaves. *)
Theorem session_requests calls st :
  length (requests (run_session calls st)) =
    (length (requests st) + length (backend_calls calls))%nat ∧
  requests st `prefix_of` requests (run_session calls st) ∧
  stderr st `prefix_of` stderr (run_session calls st).
Proof.
  revert st. induction calls as [|[backend c] calls IH]; intros st.
  - cbn. split; [lia|]. done.
  - cbn [run_session].
    destruct (IH (final (call_tool backend c) st)) as (Hlen & Hreq & Herr).
    destruct (call_tool_effects backend c st) as (log & reqs & Hlog & Hreqs & Hone).
    split; [|split].
    + rewrite Hlen, Hreqs, length_app, Hone. unfold backend_calls.
      rewrite filter_cons. cbn [snd].
      destruct (is_registry_tool c).
      * rewrite decide_False by done. lia.
      * rewrite decide_True by done. cbn. lia.
    + etrans; [|exact Hreq]. rewrite Hreqs. by apply prefix_app_r.
    + etrans; [|exact Herr]. rewrite Hlog. by apply prefix_app_r.
Qed.

Lemma process_start_witness :
  ∃ call,
    new_requests
      (call_tool (λ _, inl (Exn ClientError "refused")) (Tool.list_panes))
      (run_session [((λ _, inl (Exn ClientError "refused")), Tool.list_windows)]
                   (module_init ∅ (λ _, false))) = [call] ∧
    payload_window_id call = None.
Proof.
  apply (proj2 (process_start ∅ (λ _, false)
                  [((λ _, inl (Exn ClientError "refused")), Tool.list_windows)]
                  (λ _, inl (Exn ClientError "refused")) Tool.list_panes)).
  - repeat constructor.
  - reflexivity.
Defined.

(** ** What a wrapper hands back *)

(** X5.  A relay wrapper adds nothing of its own: it makes the one Action
    Request and returns the relay's result for the backend's answer,
    serialised with indent 2, failures included, so an unreachable backend
    shows as the pretty-printed failure object with the Connection error
    message. *)
Theorem wrapper_returns_relay_result backend c st :
  is_window_tool c = false →
  ∃ action args,
    let call := action_request (INCOGNIDE_BACKEND_URL st) action args (_target_window_id st) in
    new_requests (call_tool backend c) st = [call] ∧
    outcome (call_tool backend c) st =
      Return (json_dumps (Some 2%nat) (action_result (backend call))) ∧
    (∀ e, backend call = inl e → isinstance e ClientError = true →
       outcome (call_tool backend c) st =
       Return (json_dumps (Some 2%nat) (VDict [
         ("success", VBool false);
         ("error", VStr ("Connection error: " +:+ exn_str e)) ]))).
Proof.
  intros Hw. destruct (call_tool_relay c Hw) as (action & args & Hrelay).
  exists action, args. cbn zeta. rewrite Hrelay.
  split; [apply relay_wrapper_requests|].
  unfold outcome. destruct (relay_wrapper_run backend action args st) as [log ->].
  cbn [fst]. split; [done|].
  intros e He Hcls. rewrite He. unfold action_result, error_result. by rewrite Hcls.
Qed.

Lemma wrapper_returns_relay_result_witness :
  outcome (call_tool (λ _, inl (Exn ClientError "refused")) (Tool.document_save None))
          (State "http://127.0.0.1:5437" "" [] []) =
  Return (json_dumps (Some 2%nat) (VDict [
    ("success", VBool false); ("error", VStr "Connection error: refused") ])).
Proof.
  destruct (wrapper_returns_relay_result (λ _, inl (Exn ClientError "refused"))
              (Tool.document_save None) (State "http://127.0.0.1:5437" "" [] []) eq_refl)
    as (action & args & _ & _ & Herror).
  apply (Herror (Exn ClientError "refused")); reflexivity.
Defined.

(** ** What goes to the error stream *)

Lemma relay_stderr_cases backend action args window_id st :
  let window := effective_window window_id (_target_window_id st) in
  let call := action_request (INCOGNIDE_BACKEND_URL st) action args window in
  let line := Written ("[MCP SERVER] call_incognide_action: " +:+ action +:+
                       " window=" +:+ window +:+ nl) in
  let caught e :=
    if isinstance e ClientError
    then [Written ("[MCP SERVER] Connection error: " +:+ exn_str e +:+ nl)]
    else [Written ("[MCP SERVER] Exception: " +:+ exn_str e +:+ nl); Traceback e] in
  stderr (final (call_incognide_action backend action args window_id) st) =
  stderr st ++ line ::
    match backend call with
    | inl e => caught e
    | inr resp =>
        if status resp =? 200 then
          match json_body resp with
          | inr _ => []
          | inl e => caught e
          end
        else
          match text_body resp with
          | inr body =>
              [Written ("[MCP SERVER] Error: HTTP " +:+ str_of_int (status resp) +:+
                        ": " +:+ body +:+ nl)]
          | inl e => caught e
          end
    end.
Proof.
  intros window call line caught. unfold final, call_incognide_action.
  rewrite run_bind. unfold read_target_window_id.
  rewrite py_or_effective. fold window.
  rewrite run_bind. unfold stderr_write at 1.
  unfold try_except. rewrite run_bind. unfold read_backend_url. cbn [INCOGNIDE_BACKEND_URL].
  rewrite run_bind. rewrite relay_payload.
  unfold session_post, session_request.
  cbn [INCOGNIDE_BACKEND_URL _target_window_id stderr requests].
  fold (action_request (INCOGNIDE_BACKEND_URL st) action args window). fold call. fold line.
  subst caught.
  destruct (backend call) as [[[] msg]|[code js tx]]; cbn.
  - run_handlers. cbn. by rewrite <- !(assoc_L (++)).
  - run_handlers. cbn. by rewrite <- !(assoc_L (++)).
  - destruct (code =? 200).
    + destruct js as [[[] msg]|v]; cbn; [| |done];
        run_handlers; cbn; by rewrite <- !(assoc_L (++)).
    + destruct tx as [[[] msg]|body]; cbn;
        run_handlers; cbn; by rewrite <- !(assoc_L (++)).
Qed.

(** X6.  The relay writes one line per call to the error stream, naming the
    action and the effective window; a parsed 200 answer adds nothing to
    it; a status other than 200 adds the line of the HTTP error, a
    ClientError the line of the connection error, any other exception its
    line and the traceback. *)
Theorem relay_stderr_log backend action args window_id st :
  let window := effective_window window_id (_target_window_id st) in
  let call := action_request (INCOGNIDE_BACKEND_URL st) action args window in
  let line := Written ("[MCP SERVER] call_incognide_action: " +:+ action +:+
                       " window=" +:+ window +:+ nl) in
  let written :=
    drop (length (stderr st))
         (stderr (final (call_incognide_action backend action args window_id) st)) in
  (parsed_ok (backend call) = true → written = [line]) ∧
  (∀ resp body,
     backend call = inr resp → status resp ≠ 200 → text_body resp = inr body →
     written = [line;
                Written ("[MCP SERVER] Error: HTTP " +:+ str_of_int (status resp) +:+
                         ": " +:+ body +:+ nl)]) ∧
  (∀ e,
     exchange_error (backend call) = Some e → isinstance e ClientError = true →
     written = [line; Written ("[MCP SERVER] Connection error: " +:+ exn_str e +:+ nl)]) ∧
  (∀ e,
     exchange_error (backend call) = Some e → isinstance e ClientError = false →
     written = [line; Written ("[MCP SERVER] Exception: " +:+ exn_str e +:+ nl);
                Traceback e]).
Proof.
  intros window call line written. subst written.
  rewrite relay_stderr_cases, drop_app_length. fold window call line.
  unfold parsed_ok, exchange_error.
  destruct (backend call) as [e|[code js tx]]; cbn [status json_body text_body].
  - split; [done|]. split; [done|].
    split; intros e' [= <-] Hcls; by rewrite Hcls.
  - destruct (code =? 200) eqn:Hcode.
    + apply Z.eqb_eq in Hcode as ->.
      split; [by destruct js|]. split; [by intros resp body [= <-]|].
      destruct js as [e|v]; [|done].
      split; intros e' [= <-] Hcls; by rewrite Hcls.
    + apply Z.eqb_neq in Hcode.
      split; [done|]. split.
      * intros resp body [= <-] _ Htx. cbn in Htx. by rewrite Htx.
      * destruct tx as [e|body]; [|done].
        split; intros e' [= <-] Hcls; by rewrite Hcls.
Qed.

Lemma relay_stderr_log_witness :
  drop (length ([] : list stderr_item))
       (stderr (final (call_incognide_action
                         (λ _, inr (Response 404 (inr VNone) (inr "not found")))
                         "list_panes" [] "")
                      (State "http://127.0.0.1:5437" "W1" [] []))) =
  [Written ("[MCP SERVER] call_incognide_action: list_panes window=W1" +:+ nl);
   Written ("[MCP SERVER] Error: HTTP 404: not found" +:+ nl)].
Proof.
  apply (proj1 (proj2 (relay_stderr_log
    (λ _, inr (Response 404 (inr VNone) (inr "not found")))
    "list_panes" [] "" (State "http://127.0.0.1:5437" "W1" [] [])))
    (Response 404 (inr VNone) (inr "not found")) "not found");
    [reflexivity|discriminate|reflexivity].
Defined.

Lemma list_windows_stderr backend st :
  let call := HttpCall GET (INCOGNIDE_BACKEND_URL st +:+ "/api/studio/windows") None 10 in
  stderr (final (list_windows backend) st) =
  stderr st ++
    match exchange_error (backend call) with
    | Some e => [Written ("[MCP SERVER] list_windows error: " +:+ exn_str e +:+ nl)]
    | None => []
    end.
Proof.
  intros call. unfold final, list_windows, try_except. rewrite run_bind.
  unfold read_backend_url. rewrite run_bind.
  unfold session_get, session_request, exchange_error.
  cbn [INCOGNIDE_BACKEND_URL _target_window_id stderr requests]. fold call.
  destruct (backend call) as [[cls msg]|[code js tx]]; cbn.
  - by destruct cls; run_handlers.
  - destruct (code =? 200).
    + destruct js as [[cls msg]|v]; cbn.
      * by destruct cls; run_handlers.
      * by rewrite (right_id_L [] (++)).
    + destruct tx as [[cls msg]|body]; cbn.
      * by destruct cls; run_handlers.
      * by rewrite (right_id_L [] (++)).
Qed.

(** X7.  list_windows does not look at the Target Registry: whatever
    target is set, it makes the same request and returns the same text, and
    it leaves the target as it was.  It writes to the error stream only
    when an exception is caught; a status other than 200 is reported in the
    result but, unlike in the relay, not logged. *)
Theorem list_windows_ignores_target backend base w1 w2 log reqs :
  let call := HttpCall GET (base +:+ "/api/studio/windows") None 10 in
  let written :=
    drop (length log) (stderr (final (list_windows backend) (State base w1 log reqs))) in
  outcome (list_windows backend) (State base w1 log reqs) =
    outcome (list_windows backend) (State base w2 log reqs) ∧
  new_requests (list_windows backend) (State base w1 log reqs) =
    new_requests (list_windows backend) (State base w2 log reqs) ∧
  _target_window_id (final (list_windows backend) (State base w1 log reqs)) = w1 ∧
  (exchange_error (backend call) = None → written = []) ∧
  (∀ e, exchange_error (backend call) = Some e →
     written = [Written ("[MCP SERVER] list_windows error: " +:+ exn_str e +:+ nl)]).
Proof.
  intros call written. subst written. split; [|split; [|split; [|split]]].
  - unfold outcome.
    destruct (list_windows_run backend (State base w1 log reqs)) as (t1 & l1 & -> & ->).
    destruct (list_windows_run backend (State base w2 log reqs)) as (t2 & l2 & -> & ->).
    done.
  - by rewrite !list_windows_requests.
  - unfold final.
    by destruct (list_windows_run backend (State base w1 log reqs)) as (t1 & l1 & -> & _).
  - intros Hnone. rewrite list_windows_stderr. cbn [INCOGNIDE_BACKEND_URL stderr].
    fold call. by rewrite Hnone, drop_app_length.
  - intros e He. rewrite list_windows_stderr. cbn [INCOGNIDE_BACKEND_URL stderr].
    fold call. by rewrite He, drop_app_length.
Qed.

Lemma list_windows_ignores_target_witness :
  drop (length ([] : list stderr_item))
       (stderr (final (list_windows (λ _, inr (Response 503 (inr VNone) (inr "down"))))
                      (State "http://127.0.0.1:5437" "W1" [] []))) = [].
Proof.
  apply (proj1 (proj2 (proj2 (proj2 (list_windows_ignores_target
    (λ _, inr (Response 503 (inr VNone) (inr "down")))
    "http://127.0.0.1:5437" "W1" "" [] []))))).
  reflexivity.
Defined.

(** ** Sentinel indexes *)

(** X8.  In the five wrappers with a sentinel index every negative index is
    sent as null, so any two negative indexes, and the omitted index, make
    the same call; spreadsheet_delete_row has no sentinel and sends a
    negative index as it is. *)
Theorem sentinel_index_collapse backend i j pane_id shape_index text :
  i < 0 → j < 0 →
  ((∀ st,
      payload_args <$>
        new_requests (call_tool backend (Tool.spreadsheet_add_row (Some i) pane_id)) st =
      [Some [("paneId", VStr (default "active" pane_id)); ("index", VNone)]]) ∧
   call_tool backend (Tool.spreadsheet_add_row (Some i) pane_id) =
     call_tool backend (Tool.spreadsheet_add_row (Some j) pane_id) ∧
   call_tool backend (Tool.spreadsheet_add_row (Some i) pane_id) =
     call_tool backend (Tool.spreadsheet_add_row None pane_id)) ∧
  ((∀ st,
      payload_args <$>
        new_requests (call_tool backend (Tool.presentation_read_slide (Some i) pane_id)) st =
      [Some [("paneId", VStr (default "active" pane_id)); ("slideIndex", VNone)]]) ∧
   call_tool backend (Tool.presentation_read_slide (Some i) pane_id) =
     call_tool backend (Tool.presentation_read_slide (Some j) pane_id) ∧
   call_tool backend (Tool.presentation_read_slide (Some i) pane_id) =
     call_tool backend (Tool.presentation_read_slide None pane_id)) ∧
  ((∀ st,
      payload_args <$>
        new_requests
          (call_tool backend
             (Tool.presentation_update_text shape_index text (Some i) pane_id)) st =
      [Some [("paneId", VStr (default "active" pane_id)); ("shapeIndex", VInt shape_index);
             ("text", VStr text); ("slideIndex", VNone)]]) ∧
   call_tool backend (Tool.presentation_update_text shape_index text (Some i) pane_id) =
     call_tool backend (Tool.presentation_update_text shape_index text (Some j) pane_id) ∧
   call_tool backend (Tool.presentation_update_text shape_index text (Some i) pane_id) =
     call_tool backend (Tool.presentation_update_text shape_index text None pane_id)) ∧
  ((∀ st,
      payload_args <$>
        new_requests
          (call_tool backend (Tool.presentation_delete_slide (Some i) pane_id)) st =
      [Some [("paneId", VStr (default "active" pane_id)); ("slideIndex", VNone)]]) ∧
   call_tool backend (Tool.presentation_delete_slide (Some i) pane_id) =
     call_tool backend (Tool.presentation_delete_slide (Some j) pane_id) ∧
   call_tool backend (Tool.presentation_delete_slide (Some i) pane_id) =
     call_tool backend (Tool.presentation_delete_slide None pane_id)) ∧
  ((∀ st,
      payload_args <$>
        new_requests
          (call_tool backend (Tool.presentation_duplicate_slide (Some i) pane_id)) st =
      [Some [("paneId", VStr (default "active" pane_id)); ("slideIndex", VNone)]]) ∧
   call_tool backend (Tool.presentation_duplicate_slide (Some i) pane_id) =
     call_tool backend (Tool.presentation_duplicate_slide (Some j) pane_id) ∧
   call_tool backend (Tool.presentation_duplicate_slide (Some i) pane_id) =
     call_tool backend (Tool.presentation_duplicate_slide None pane_id)) ∧
  (∀ st,
     payload_args <$>
       new_requests (call_tool backend (Tool.spreadsheet_delete_row i pane_id)) st =
     [Some [("paneId", VStr (default "active" pane_id)); ("index", VInt i)]]).
Proof.
  intros Hi Hj. apply Z.leb_gt in Hi, Hj.
  cbn [call_tool default].
  unfold spreadsheet_add_row, presentation_read_slide, presentation_update_text,
    presentation_delete_slide, presentation_duplicate_slide, spreadsheet_delete_row.
  cbv [id]. rewrite Hi, Hj. change (0 <=? -1) with false. cbv iota.
  repeat split; try done; intros st; exact (sent_args_relay backend _ _ st).
Qed.

Lemma sentinel_index_collapse_witness :
  call_tool (λ _, inl (Exn ClientError "refused"))
            (Tool.presentation_delete_slide (Some (-7)) None) =
  call_tool (λ _, inl (Exn ClientError "refused"))
            (Tool.presentation_delete_slide None None).
Proof.
  apply (sentinel_index_collapse (λ _, inl (Exn ClientError "refused"))
           (-7) (-1) None 0 "").
  - reflexivity.
  - reflexivity.
Defined.

(** ** Well-formed dictionaries *)





(** ** Start-up *)

Lemma write_lines_run lines st :
  foldr (λ line rest, stderr_write line;; rest) (mret tt : M unit) lines st =
  (Return tt,
   State (INCOGNIDE_BACKEND_URL st) (_target_window_id st)
         (stderr st ++ (Written <$> lines)) (requests st)).
Proof.
  revert st. induction lines as [|line lines IH]; intros st.
  - destruct st. cbn. by rewrite (right_id_L [] (++)).
  - cbn [foldr]. rewrite run_bind. unfold stderr_write at 1. rewrite IH.
    cbn. by rewrite <- (assoc_L (++)).
Qed.

(** X10.  The start-up block writes to the error stream only: it reports
    the backend URL in use and leaves the backend URL, the target registry
    and the HTTP session untouched.  Its banner lists every registered
    tool, each name once, and no name that is not a tool. *)
Theorem startup_banner :
  (∀ st,
     final startup st =
     State (INCOGNIDE_BACKEND_URL st) (_target_window_id st)
           (stderr st ++
            Written ("Starting Incognide MCP server..." +:+ nl) ::
            Written ("Backend URL: " +:+ INCOGNIDE_BACKEND_URL st +:+ nl) ::
            (Written <$> tool_banner))
           (requests st)) ∧
  NoDup banner_names ∧
  (∀ c, tool_name c ∈ banner_names) ∧
  (∀ name, name ∈ banner_names → ∃ c, tool_name c = name).
Proof.
  split; [|split; [|split]].
  - intros st. unfold final, startup.
    rewrite run_bind. unfold stderr_write at 1. rewrite run_bind.
    unfold read_backend_url. rewrite run_bind. unfold stderr_write at 1.
    rewrite write_lines_run.
    cbn [INCOGNIDE_BACKEND_URL _target_window_id stderr requests snd].
    by rewrite <- !(assoc_L (++)).
  - apply (bool_decide_unpack _). vm_compute. exact I.
  - intros c. destruct c; apply (bool_decide_unpack _); vm_compute; exact I.
  - intros name Hname.
    assert (Forall (λ n, n ∈ tool_name <$> tool_samples) banner_names) as Hall.
    { apply (bool_decide_unpack _). vm_compute. exact I. }
    eapply Forall_forall in Hall; [|exact Hname].
    apply list_elem_of_fmap in Hall as (c & -> & _). by exists c.
Qed.

(** ** Where the content of a pane goes *)

(** X11.  open_pane sends content_id under url exactly when it is non-empty
    and the pane is a browser, under path exactly when it is non-empty and
    the pane is anything else, never under both, and type and position
    always; split_pane sends content_id under path whatever the pane type,
    the empty string included. *)
Theorem open_pane_content_key backend pane_type content_id position shell_type
    direction pane_id st :
  (∃ args,
     payload_args <$>
       new_requests (open_pane backend pane_type content_id position shell_type) st =
     [Some args] ∧
     dict_get "type" args = Some (VStr pane_type) ∧
     dict_get "position" args = Some (VStr position) ∧
     dict_get "url" args =
       (if decide (content_id ≠ "" ∧ pane_type = "browser")
        then Some (VStr content_id) else None) ∧
     dict_get "path" args =
       (if decide (content_id ≠ "" ∧ pane_type ≠ "browser")
        then Some (VStr content_id) else None) ∧
     dict_get "shellType" args =
       (if decide (shell_type = "") then None else Some (VStr shell_type))) ∧
  payload_args <$>
    new_requests (split_pane backend direction pane_type content_id pane_id) st =
  [Some [("paneId", VStr pane_id); ("direction", VStr direction);
         ("type", VStr pane_type); ("path", VStr content_id)]].
Proof.
  split.
  - rewrite open_pane_relay, sent_args_relay. eexists. split; [reflexivity|].
    cbv zeta.
    destruct (decide (content_id = "")) as [->|Hc]; cbn [truthy].
    + rewrite !decide_False by (by intros [? _]).
      destruct (decide (shell_type = "")) as [->|Hs]; [done|].
      apply truthy_true in Hs. by rewrite Hs.
    + pose proof Hc as Hc'. apply truthy_true in Hc'. rewrite Hc'.
      destruct (decide (pane_type = "browser")) as [->|Hp].
      * rewrite decide_True, decide_False by (by intros [_ ?] || done).
        destruct (decide (shell_type = "")) as [->|Hs]; [done|].
        apply truthy_true in Hs. by rewrite Hs.
      * rewrite decide_False, decide_True by (by intros [_ ?] || done).
        pose proof Hp as Hp'. apply String.eqb_neq in Hp'. rewrite Hp'.
        destruct (decide (shell_type = "")) as [->|Hs]; [done|].
        apply truthy_true in Hs. by rewrite Hs.
  - change (split_pane backend direction pane_type content_id pane_id) with
      (relay_wrapper backend "split_pane"
         [("paneId", VStr pane_id); ("direction", VStr direction);
          ("type", VStr pane_type); ("path", VStr content_id)]).
    by rewrite sent_args_relay.
Qed.
